(** * Wiki-bot: context extraction and excerpt highlighting

    A shallow embedding of [src/main.py].  Python [str] values are
    modelled as lists of 8-bit characters read as the code points
    0..255 (Latin-1); Python [int] offsets are modelled as [Z].  The
    string primitives the program calls ([in], [find], [replace],
    [strip], [join], slicing) are given executable models in the
    module [Py].  The call to [re.finditer] is an argument of the
    function that makes it, so that the program is followed on every
    search term; the module [Re] describes that call on simple
    patterns.  The functions of the program itself follow, under the
    names they have in the source. *)

From Stdlib Require Import Ascii String.
From Stdlib Require Import List Sorted ZArith Lia Bool.
Import ListNotations.

Open Scope Z_scope.

(** ** Strings *)

Definition str := list ascii.

Definition lit (s : string) : str := list_ascii_of_string s.

Definition chr (n : nat) : ascii := ascii_of_nat n.

Definition NL : ascii := chr 10.
Definition SP : ascii := chr 32.
Definition ESC : ascii := chr 27.
Definition DQUOTE : ascii := chr 34.

(** ** Python string primitives *)

Module Py.

Definition len (s : str) : Z := Z.of_nat (length s).

(** Index adjustment of a slice bound: a negative bound counts from
    the end, and every bound is clamped to [0, len]. *)
Definition adjust (n i : Z) : Z :=
  if i <? 0 then Z.max 0 (i + n) else Z.min i n.

(** [s[a:b]] *)
Definition slice (s : str) (a b : Z) : str :=
  let a' := adjust (len s) a in
  let b' := adjust (len s) b in
  firstn (Z.to_nat (b' - a')) (skipn (Z.to_nat a') s).

Fixpoint starts_with (p s : str) : bool :=
  match p, s with
  | [], _ => true
  | _ :: _, [] => false
  | a :: p', b :: s' => Ascii.eqb a b && starts_with p' s'
  end.

(** [sub in s] *)
Fixpoint contains (sub s : str) : bool :=
  starts_with sub s ||
  match s with
  | [] => false
  | _ :: s' => contains sub s'
  end.

(** [s.find(sub)]: lowest offset of [sub] in [s], or -1 *)
Fixpoint find (s sub : str) : Z :=
  if starts_with sub s then 0
  else match s with
       | [] => -1
       | _ :: s' => let r := find s' sub in
                    if r <? 0 then -1 else r + 1
       end.

(** [s.replace(old, new)]: every occurrence met by a left-to-right
    scan that resumes after the occurrence just replaced.  [skip]
    counts the characters of that occurrence still to be passed. *)
Fixpoint replace_go (old new : str) (skip : nat) (s : str) : str :=
  match s with
  | [] => match old, skip with
          | [], O => new
          | _, _ => []
          end
  | c :: s' =>
    match skip with
    | S k => replace_go old new k s'
    | O =>
      if starts_with old s then
        match old with
        | [] => new ++ c :: replace_go old new 0 s'
        | _ :: old' => new ++ replace_go old new (length old') s'
        end
      else c :: replace_go old new 0 s'
    end
  end.

Definition replace (s old new : str) : str := replace_go old new 0 s.

(** [str.isspace] on the code points 0..255 *)
Definition isspace (c : ascii) : bool :=
  let n := N_of_ascii c in
  (((9 <=? n) && (n <=? 13)) || ((28 <=? n) && (n <=? 32))
   || (n =? 133) || (n =? 160))%N.

Fixpoint lstrip (s : str) : str :=
  match s with
  | [] => []
  | c :: s' => if isspace c then lstrip s' else s
  end.

Definition rstrip (s : str) : str := rev (lstrip (rev s)).

(** [s.strip()] *)
Definition strip (s : str) : str := rstrip (lstrip s).

(** [sep.join(l)] *)
Fixpoint join (sep : str) (l : list str) : str :=
  match l with
  | [] => []
  | x :: rest =>
    match rest with
    | [] => x
    | _ :: _ => x ++ sep ++ join sep rest
    end
  end.

End Py.

(** ** What [re.finditer] does on simple patterns

    [re.finditer(pattern, string, re.IGNORECASE)] is library code, and
    the program takes it as it is: [generate_context] below has the
    library call as an argument.  This module describes the library on
    the patterns built from ordinary characters and [.]: such a
    pattern matches exactly as many characters as it has atoms.  It
    says nothing ([None]) of any other pattern. *)

Module Re.

Inductive atom : Type :=
| Lit (c : ascii)
| AnyChar.

(** The characters the pattern parser does not read as themselves:
    [. \ [ { ( ) * + ? ^ $ |] *)
Definition special (c : ascii) : bool :=
  existsb (Ascii.eqb c) (lit ".\[{()*+?^$|").

Fixpoint parse (pattern : str) : option (list atom) :=
  match pattern with
  | [] => Some []
  | c :: rest =>
    if Ascii.eqb c "."%char then option_map (cons AnyChar) (parse rest)
    else if special c then None
    else option_map (cons (Lit c)) (parse rest)
  end.

(** Lower-casing of the code points 0..255: [A-Z] and the accented
    capitals 0xC0..0xDE (0xD7, the multiplication sign, apart). *)
Definition lower (c : ascii) : ascii :=
  let n := N_of_ascii c in
  if (((65 <=? n) && (n <=? 90))
      || ((192 <=? n) && (n <=? 222) && negb (n =? 215)))%N
  then ascii_of_N (n + 32) else c.

Definition atom_matches (a : atom) (c : ascii) : bool :=
  match a with
  | Lit x => Ascii.eqb (lower x) (lower c)
  | AnyChar => negb (Ascii.eqb c NL)
  end.

Fixpoint match_here (p : list atom) (s : str) : bool :=
  match p, s with
  | [], _ => true
  | _ :: _, [] => false
  | a :: p', c :: s' => atom_matches a c && match_here p' s'
  end.

(** The scan of [finditer]: the leftmost match from the current
    position is reported, and the search resumes where that match
    ended (one character further after an empty match). *)
Fixpoint scan (p : list atom) (pos : Z) (skip : nat) (s : str) : list Z :=
  match s with
  | [] => match skip with
          | O => if match_here p [] then [pos] else []
          | S _ => []
          end
  | _ :: s' =>
    match skip with
    | S k => scan p (pos + 1) k s'
    | O => if match_here p s
           then pos :: scan p (pos + 1) (Nat.pred (length p)) s'
           else scan p (pos + 1) 0 s'
    end
  end.

(** [[m.start() for m in re.finditer(pattern, string, re.IGNORECASE)]] *)
Definition finditer (pattern string : str) : option (list Z) :=
  option_map (fun p => scan p 0 0 string) (parse pattern).

End Re.

(** ** The program *)

Definition CONTEXT_CHAR_LIMIT : Z := 4000.
Definition CONTEXT_HALF_SIZE : Z := 300.
Definition EXCERPT_HALF_SIZE : Z := 200.

Definition CONTEXT_DIVIDER : str := lit " [...] ".
Definition BOLD_SEQUENCE_START : str := ESC :: lit "[1m".
Definition BOLD_SEQUENCE_END : str := ESC :: lit "[0m".

(** A [wikipedia] page, as far as the program reads it. *)
Record Page : Type := mkPage {
  title : str;
  content : str;
  summary : str;
  url : str
}.

Definition sanitize_response (response : str) : str :=
  Py.replace (Py.replace (Py.strip response) [NL] []) [DQUOTE] [].

(** [gen_completion]: the text of the first choice of the service's
    reply is the argument; the request itself is not modelled. *)
Definition gen_completion (reply : str) : str := sanitize_response reply.

(** The window of [generate_context] around the match offset [m]. *)
Definition context_window (body : str) (m : Z) : str :=
  if m >? CONTEXT_HALF_SIZE
  then Py.slice body (m - CONTEXT_HALF_SIZE) (m + CONTEXT_HALF_SIZE)
  else Py.slice body 0 (m + m).

(** The loop of [generate_context] over the match offsets, with the
    list [top_three_contexts] threaded through. *)
Fixpoint collect_contexts (page : Page) (matches : list Z)
         (top_three_contexts : list str) : list str :=
  match matches with
  | [] => top_three_contexts
  | m :: rest =>
    if Nat.eqb (length top_three_contexts) 3 then top_three_contexts
    else
      let excerpt := context_window (content page) m in
      if Py.contains excerpt (summary page)
      then collect_contexts page rest top_three_contexts
      else collect_contexts page rest
             (top_three_contexts ++ [Py.strip excerpt])
  end.

(** [generate_context] once the match offsets are known. *)
Definition context_of_matches (page : Page) (matches : list Z) : str :=
  Py.slice
    (Py.join CONTEXT_DIVIDER
       (Py.strip (summary page) :: collect_contexts page matches []))
    0 CONTEXT_CHAR_LIMIT.

(** The library call of [generate_context]:
    [[m.start() for m in re.finditer(pattern, string, re.IGNORECASE)]],
    or nothing when the library raises [re.error]. *)
Definition finditer_call : Type := str -> str -> option (list Z).

(** [generate_context]; nothing is returned when the library call
    raises.  [finditer] is the library, whatever the search term;
    [Re.finditer] stands for it on the patterns it describes. *)
Definition generate_context (finditer : finditer_call) (page : Page)
           (ctrlf_term : str) : option str :=
  option_map (context_of_matches page)
             (finditer ctrlf_term (content page)).

(** [generate_excerpt]: [reply] is what the completion service sent
    back for the excerpt prompt. *)
Definition generate_excerpt (context reply : str) : option str :=
  let excerpt := gen_completion reply in
  if Py.contains excerpt context then Some excerpt else None.

(** [excerpt] is [None] for Python's [None]. *)
Definition generate_context_highlighted (context : str)
           (excerpt : option str) : str :=
  match excerpt with
  | None => Py.replace context [NL] [SP]
  | Some e =>
    if negb (Py.contains e context) then Py.replace context [NL] [SP]
    else
      let context_highlighted :=
        match e with
        | [] => context
        | _ :: _ =>
          Py.replace context e
                     (BOLD_SEQUENCE_START ++ e ++ BOLD_SEQUENCE_END)
        end in
      let m := Py.find context_highlighted e in
      let context_highlighted_abridged :=
        if m >? EXCERPT_HALF_SIZE
        then Py.slice context_highlighted (m - EXCERPT_HALF_SIZE)
                      (m + Py.len e + EXCERPT_HALF_SIZE)
        else Py.slice context_highlighted 0
                      (m + Py.len e + EXCERPT_HALF_SIZE) in
      Py.replace context_highlighted_abridged [NL] [SP]
  end.

(** ** Notions the statements below are phrased with *)

(** Newlines to spaces, character by character. *)
Definition newline_to_space (c : ascii) : ascii :=
  if Ascii.eqb c NL then SP else c.

(** The window as the specification words it: from [s - 300] to
    [s + 300] when [s] is at least 300, from 0 to [s + s] when [s] is
    below 300. *)
Definition mirrored_window (body : str) (s : Z) : str :=
  if s <? 300 then Py.slice body 0 (s + s)
  else Py.slice body (s - 300) (s + 300).

(** The library call does what the module [Re] says, on the patterns
    the module describes. *)
Definition as_described (finditer : finditer_call) : Prop :=
  forall pattern string ms,
    Re.finditer pattern string = Some ms ->
    finditer pattern string = Some ms.

(** The excerpt between the two bold sequences. *)
Definition bold (e : str) : str :=
  BOLD_SEQUENCE_START ++ e ++ BOLD_SEQUENCE_END.

(** [term], taken as a literal string, occurs in [body] at offset [k]
    when the case of letters is ignored. *)
Definition occurs_ignoring_case (term body : str) (k : nat) : bool :=
  (k <=? length body)%nat
  && Py.starts_with (map Re.lower term) (map Re.lower (skipn k body)).

(** Every offset of a case-insensitive literal occurrence, left to
    right: what the specification asks the match list to be. *)
Definition literal_offsets (term body : str) : list Z :=
  map Z.of_nat
      (filter (occurs_ignoring_case term body) (seq 0 (S (length body)))).

(** The windows the loop of [generate_context] would accept if it had
    no limit of three: those not found in the summary, trimmed. *)
Definition accepted_windows (page : Page) (matches : list Z) : list str :=
  map Py.strip
      (filter (fun w => negb (Py.contains w (summary page)))
              (map (context_window (content page)) matches)).

(** The characters [sanitize_response] lets through. *)
Definition kept_char (c : ascii) : bool :=
  negb (Ascii.eqb c NL) && negb (Ascii.eqb c DQUOTE).

(** ** The services around the program, and the orchestration

    The completion service and the [wikipedia] package are outside the
    program: they are taken as a record of functions.  Printing,
    [sys.exit] and uncaught exceptions are made explicit: a computation
    yields the lines it printed and how it ended. *)

(** What [wikipedia.page(title, auto_suggest=False)] does. *)
Inductive page_reply : Type :=
| PageFound (p : Page)
| PageAmbiguous (options : list str)
| PageFailed.

Record World : Type := mkWorld {
  (** the text of the first choice of the reply to a prompt, or
      nothing when the request or the decoding of the reply fails *)
  completion_text : str -> option str;
  (** [wikipedia.search], or nothing when it raises *)
  wikipedia_search : str -> option (list str);
  wikipedia_page : str -> page_reply;
  (** the match offsets [re.finditer] reports for a pattern in a
      string, case ignored, or nothing when it raises [re.error] *)
  re_finditer : finditer_call;
  (** the module constant [DATE_TODAY] *)
  date_today : str
}.

Inductive exn : Type :=
| RequestFailed
| DisambiguationError
| PageError
| IndexError
| ReError.

Inductive outcome (A : Type) : Type :=
| Returned (a : A)
| Exited (code : Z)
| Raised (e : exn).

Arguments Returned {A} a.
Arguments Exited {A} code.
Arguments Raised {A} e.

(** Printed lines, then the outcome. *)
Definition run (A : Type) : Type := (list str * outcome A)%type.

Definition ret {A : Type} (a : A) : run A := ([], Returned a).

Definition bind {A B : Type} (m : run A) (f : A -> run B) : run B :=
  match m with
  | (out, Returned a) => let (out', r) := f a in (out ++ out', r)
  | (out, Exited code) => (out, Exited code)
  | (out, Raised e) => (out, Raised e)
  end.

Notation "x <- m ;; k" := (bind m (fun x => k))
  (at level 61, m at next level, right associativity).

Definition print (line : str) : run unit := ([line], Returned tt).

Definition sys_exit {A : Type} (code : Z) : run A := ([], Exited code).

Definition raise {A : Type} (e : exn) : run A := ([], Raised e).

(** [gen_completion(prompt)], with the request to the service. *)
Definition request_completion (w : World) (prompt : str) : run str :=
  match completion_text w prompt with
  | Some reply => ret (gen_completion reply)
  | None => raise RequestFailed
  end.

Definition page_search_prompt (question : str) : str :=
  NL :: lit "Which Wikipedia page would you search for to answer the following question: "
     ++ DQUOTE :: question ++ DQUOTE :: NL :: NL :: lit "Page name:".

Definition question_to_page_search_query (w : World) (question : str)
  : run str :=
  request_completion w (page_search_prompt question).

Definition page_search_query_to_page (w : World) (page_search_query : str)
  : run Page :=
  match wikipedia_search w page_search_query with
  | None => raise RequestFailed
  | Some [] =>
    _ <- print (lit "No Wikipedia pages found to answer the question") ;;
    sys_exit 1
  | Some (first :: _) =>
    match wikipedia_page w first with
    | PageFound p => ret p
    | PageFailed => raise PageError
    | PageAmbiguous [] => raise IndexError
    | PageAmbiguous (option0 :: _) =>
      match wikipedia_page w option0 with
      | PageFound p => ret p
      | PageAmbiguous _ => raise DisambiguationError
      | PageFailed => raise PageError
      end
    end
  end.

Definition ctrlf_term_prompt (page_title question : str) : str :=
  NL :: lit "Given the Wikipedia page for " ++ DQUOTE :: page_title
     ++ DQUOTE :: lit ", what word would you search for on the page to answer the question "
     ++ DQUOTE :: question ++ DQUOTE :: NL :: NL :: lit "Search term:".

Definition generate_ctrlf_term (w : World) (page : Page) (question : str)
  : run str :=
  request_completion w (ctrlf_term_prompt (title page) question).

Definition answer_prompt (today context question : str) : str :=
  NL :: lit "Background text: " ++ NL :: NL :: DQUOTE :: context
     ++ DQUOTE :: NL :: NL
     :: lit "Answer the following question using only the background text above. Today's date is "
     ++ today ++ lit "." ++ NL :: NL :: lit "Question: " ++ DQUOTE :: question
     ++ DQUOTE :: NL :: lit "Answer:".

Definition generate_answer (w : World) (context question : str) : run str :=
  request_completion w (answer_prompt (date_today w) context question).

Definition excerpt_prompt (context question : str) : str :=
  NL :: lit "Background text: " ++ NL :: NL :: DQUOTE :: context
     ++ DQUOTE :: NL :: NL
     :: lit "Given the background text above, which substring would you highlight to answer the question "
     ++ DQUOTE :: question ++ DQUOTE :: NL :: NL :: lit "Excerpt:".

(** [generate_excerpt(context, question)], with the request. *)
Definition request_excerpt (w : World) (context question : str)
  : run (option str) :=
  match completion_text w (excerpt_prompt context question) with
  | Some reply => ret (generate_excerpt context reply)
  | None => raise RequestFailed
  end.

Definition summary_pretty (answer context_highlighted page_url : str) : str :=
  NL :: NL :: lit "    Answer: " ++ BOLD_SEQUENCE_START ++ answer
     ++ BOLD_SEQUENCE_END ++ NL :: NL :: lit "    Context:" ++ NL :: NL
     :: lit "    > [...] " ++ context_highlighted ++ lit "  [...]" ++ NL :: NL
     :: lit "    URL: " ++ page_url ++ NL :: NL :: lit "    ".

(** [answer_question]; the two requests gathered together are made one
    after the other, the service being a function of the prompt. *)
Definition answer_question (w : World) (question : str) : run unit :=
  page_search_query <- question_to_page_search_query w question ;;
  page <- page_search_query_to_page w page_search_query ;;
  _ <- print (lit "Pulling up page: " ++ title page) ;;
  ctrlf_term <- generate_ctrlf_term w page question ;;
  context <- match generate_context (re_finditer w) page ctrlf_term with
             | Some context => ret context
             | None => raise ReError
             end ;;
  answer <- generate_answer w context question ;;
  excerpt <- request_excerpt w context question ;;
  print (summary_pretty answer
           (generate_context_highlighted context excerpt) (url page)).

(** ** Sanity checks of the models on concrete inputs *)

Example ex_slice_neg : Py.slice (lit "abcdef") (-3) (-1) = lit "de".
Proof. reflexivity. Qed.

Example ex_replace_all : Py.replace (lit "aaa") (lit "aa") (lit "b") = lit "ba".
Proof. reflexivity. Qed.

Example ex_replace_empty : Py.replace (lit "ab") [] (lit "-") = lit "-a-b-".
Proof. reflexivity. Qed.

Example ex_find_absent : Py.find (lit "abc") (lit "x") = -1.
Proof. reflexivity. Qed.

Example ex_find_second : Py.find (lit "abcabc") (lit "ca") = 2.
Proof. reflexivity. Qed.

Example ex_strip_both : Py.strip (lit "  a b ") = lit "a b".
Proof. reflexivity. Qed.

Example ex_join_three :
  Py.join (lit ", ") [lit "a"; lit "b"; lit "c"] = lit "a, b, c".
Proof. reflexivity. Qed.

Example ex_finditer_empty_pattern :
  Re.finditer [] (lit "abc") = Some [0; 1; 2; 3].
Proof. reflexivity. Qed.

Example ex_finditer_case : Re.finditer (lit "Ab") (lit "xabAB") = Some [1; 3].
Proof. reflexivity. Qed.

Example ex_finditer_unmodelled : Re.finditer (lit "a*") (lit "aa") = None.
Proof. reflexivity. Qed.

(** [generate_context] with the offsets the library reports for the
    pattern [moons?]: 4 and 19. *)
Example ex_generate_context_special_term :
  generate_context (fun _ _ => Some [4; 19])
                   (mkPage [] (lit "The moon orbits. A moon is a rock.")
                           (lit "The moon orbits.") [])
                   (lit "moons?")
  = Some (lit "The moon orbits. [...] The moon orbits. A moon is a rock.").
Proof. reflexivity. Qed.

(** ** Facts about the string primitives *)

Section PyFacts.

Implicit Types (s p sub old new pre rest : str) (c : ascii).

Lemma starts_with_app p rest : Py.starts_with p (p ++ rest) = true.
Proof.
  induction p as [|a p IH]; simpl; [reflexivity|].
  now rewrite Ascii.eqb_refl, IH.
Qed.

Lemma starts_with_inv p s :
  Py.starts_with p s = true -> exists rest, s = p ++ rest.
Proof.
  revert s; induction p as [|a p IH]; intros s H.
  - now exists s.
  - destruct s as [|b s]; simpl in H; [discriminate|].
    apply andb_prop in H as [Hab Hps].
    apply Ascii.eqb_eq in Hab; subst b.
    destruct (IH _ Hps) as [rest ->].
    now exists rest.
Qed.

Lemma contains_here sub s :
  Py.starts_with sub s = true -> Py.contains sub s = true.
Proof. destruct s; simpl; intros ->; reflexivity. Qed.

(** [sub in s] holds exactly when [s] splits around a copy of [sub]. *)
Lemma contains_iff sub s :
  Py.contains sub s = true <-> exists pre rest, s = pre ++ sub ++ rest.
Proof.
  split.
  - induction s as [|c s IH]; simpl; intros H.
    + rewrite orb_false_r in H.
      apply starts_with_inv in H as [rest ->].
      now exists [], rest.
    + apply orb_prop in H as [H|H].
      * apply starts_with_inv in H as [rest Hs].
        exists [], rest; exact Hs.
      * destruct (IH H) as (pre & rest & ->).
        now exists (c :: pre), rest.
  - intros (pre & rest & ->).
    induction pre as [|c pre IH]; simpl.
    + apply contains_here, starts_with_app.
    + now rewrite IH, orb_true_r.
Qed.

Lemma contains_skipn sub s k :
  Py.contains sub (skipn k s) = true -> Py.contains sub s = true.
Proof.
  rewrite !contains_iff; intros (pre & rest & E).
  exists (firstn k s ++ pre), rest.
  now rewrite <- app_assoc, <- E, firstn_skipn.
Qed.

(** *** Slices *)

Lemma slice_nonneg s a b :
  0 <= a -> 0 <= b ->
  Py.slice s a b = firstn (Z.to_nat b - Z.to_nat a) (skipn (Z.to_nat a) s).
Proof.
  intros Ha Hb; unfold Py.slice, Py.adjust, Py.len.
  destruct (Z.ltb_spec a 0); [lia|].
  destruct (Z.ltb_spec b 0); [lia|].
  set (n := length s).
  destruct (Z_lt_le_dec a (Z.of_nat n)) as [Han|Han].
  - rewrite (Z.min_l a) by lia.
    destruct (Z_lt_le_dec b (Z.of_nat n)) as [Hbn|Hbn].
    + rewrite (Z.min_l b) by lia. f_equal; lia.
    + rewrite (Z.min_r b) by lia.
      rewrite !firstn_all2; try reflexivity;
        rewrite length_skipn; fold n; lia.
  - rewrite (Z.min_r a) by lia.
    rewrite !skipn_all2 by (fold n; lia).
    now rewrite !firstn_nil.
Qed.

Lemma slice_from_0 s b : 0 <= b -> Py.slice s 0 b = firstn (Z.to_nat b) s.
Proof.
  intros Hb; rewrite slice_nonneg by lia; simpl.
  now rewrite Nat.sub_0_r.
Qed.

Lemma slice_len_le s a b :
  0 <= a -> a <= b -> Py.len (Py.slice s a b) <= b - a.
Proof.
  intros Ha Hab; rewrite slice_nonneg by lia.
  unfold Py.len; rewrite length_firstn; lia.
Qed.

(** A slice that covers a segment of the string contains it. *)
Lemma slice_covers pre w rest a b :
  0 <= a <= Py.len pre -> Py.len pre + Py.len w <= b ->
  exists x y, Py.slice (pre ++ w ++ rest) a b = x ++ w ++ y.
Proof.
  unfold Py.len; intros Ha Hb.
  rewrite slice_nonneg by lia.
  exists (skipn (Z.to_nat a) pre).
  exists (firstn (Z.to_nat b - Z.to_nat a
                  - (length pre - Z.to_nat a) - length w) rest).
  rewrite skipn_app.
  replace (Z.to_nat a - length pre)%nat with 0%nat by lia.
  rewrite skipn_O.
  rewrite firstn_app, firstn_all2 by (rewrite length_skipn; lia).
  rewrite length_skipn, firstn_app.
  rewrite firstn_all2 by lia.
  reflexivity.
Qed.

(** *** [find] *)

Lemma find_absent s sub :
  Py.contains sub s = false -> Py.find s sub = -1.
Proof.
  induction s as [|c s IH]; simpl; intros H;
    apply orb_false_elim in H as [H1 H2]; rewrite H1; [reflexivity|].
  now rewrite (IH H2).
Qed.

(** [find] returns the least offset at which [sub] starts. *)
Lemma find_least s sub :
  Py.contains sub s = true ->
  exists k : nat,
    Py.find s sub = Z.of_nat k /\ (k <= length s)%nat /\
    Py.starts_with sub (skipn k s) = true /\
    forall j, (j < k)%nat -> Py.starts_with sub (skipn j s) = false.
Proof.
  induction s as [|c s IH]; intros H.
  - simpl in H; rewrite orb_false_r in H.
    exists 0%nat; simpl; rewrite H; repeat split; auto; intros; lia.
  - cbn [Py.contains] in H; cbn [Py.find].
    destruct (Py.starts_with sub (c :: s)) eqn:Hc.
    + exists 0%nat; repeat split; simpl; auto with arith; intros; lia.
    + simpl in H.
      destruct (IH H) as (k & Hk & Hlen & Hat & Hmin).
      exists (S k); rewrite Hk.
      destruct (Z.ltb_spec (Z.of_nat k) 0); [lia|].
      repeat split; simpl; try lia; auto.
      intros [|j] Hj; simpl; [exact Hc | apply Hmin; lia].
Qed.

(** *** [replace] *)

Lemma replace_go_skip old new l rest :
  Py.replace_go old new (length l) (l ++ rest)
  = Py.replace_go old new 0 rest.
Proof. induction l as [|c l IH]; simpl; auto. Qed.

(** The first occurrence is replaced, and the scan resumes after it. *)
Lemma replace_first old new pre rest :
  old <> [] ->
  (forall j, (j < length pre)%nat ->
             Py.starts_with old (skipn j (pre ++ old ++ rest)) = false) ->
  Py.replace (pre ++ old ++ rest) old new
  = pre ++ new ++ Py.replace rest old new.
Proof.
  unfold Py.replace; intros Hold.
  induction pre as [|c pre IH]; intros Hfirst.
  - destruct old as [|o old']; [congruence|].
    change ([] ++ (o :: old') ++ rest) with (o :: (old' ++ rest)).
    cbn [Py.replace_go].
    change (o :: old' ++ rest) with ((o :: old') ++ rest).
    rewrite starts_with_app, replace_go_skip; reflexivity.
  - change ((c :: pre) ++ old ++ rest) with (c :: (pre ++ old ++ rest)).
    cbn [Py.replace_go].
    assert (H0 : Py.starts_with old (c :: pre ++ old ++ rest) = false)
      by (apply (Hfirst 0%nat); simpl; lia).
    rewrite H0, IH; [reflexivity|].
    intros j Hj; apply (Hfirst (S j)); simpl; lia.
Qed.

(** Without an occurrence the string is returned as it is. *)
Lemma replace_absent s old new :
  Py.contains old s = false -> Py.replace s old new = s.
Proof.
  unfold Py.replace; induction s as [|c s IH]; simpl; intros H;
    apply orb_false_elim in H as [H1 H2].
  - destruct old; [discriminate|reflexivity].
  - now rewrite H1, IH.
Qed.

(** Replacing a single character acts on each character alone. *)
Lemma replace_char s c new :
  Py.replace s [c] new
  = flat_map (fun x => if Ascii.eqb c x then new else [x]) s.
Proof.
  unfold Py.replace; induction s as [|x s IH]; [reflexivity|].
  cbn [Py.replace_go Py.starts_with flat_map length].
  rewrite andb_true_r.
  destruct (Ascii.eqb c x); now rewrite IH.
Qed.

End PyFacts.

Lemma replace_newlines s :
  Py.replace s [NL] [SP] = map newline_to_space s.
Proof.
  rewrite replace_char.
  induction s as [|x s IH]; [reflexivity|].
  cbn [flat_map map]; rewrite IH.
  change (newline_to_space x) with (if Ascii.eqb x NL then SP else x).
  rewrite (Ascii.eqb_sym NL x).
  now destruct (Ascii.eqb x NL).
Qed.

(** ** The loop of [generate_context] *)

Section ContextLoop.

Variable page : Page.

(** The loop keeps the first three accepted windows and nothing else. *)
Lemma collect_contexts_acc matches acc :
  (length acc <= 3)%nat ->
  collect_contexts page matches acc
  = firstn 3 (acc ++ accepted_windows page matches).
Proof.
  revert acc; induction matches as [|m rest IH]; intros acc Hacc.
  - unfold accepted_windows; cbn [collect_contexts map filter].
    rewrite app_nil_r, firstn_all2; auto.
  - cbn [collect_contexts].
    destruct (Nat.eqb_spec (length acc) 3) as [E|NE].
    + rewrite firstn_app, firstn_all2 by lia.
      replace (3 - length acc)%nat with 0%nat by lia.
      now rewrite firstn_O, app_nil_r.
    + unfold accepted_windows; cbn [map filter].
      destruct (Py.contains (context_window (content page) m)
                            (summary page)); cbn [negb map].
      * apply IH; exact Hacc.
      * rewrite IH by (rewrite length_app; simpl; lia).
        now rewrite <- app_assoc.
Qed.

Lemma collect_contexts_first_three matches :
  collect_contexts page matches []
  = firstn 3 (accepted_windows page matches).
Proof. now rewrite collect_contexts_acc by (simpl; lia). Qed.

Lemma accepted_windows_app ms1 ms2 :
  accepted_windows page (ms1 ++ ms2)
  = accepted_windows page ms1 ++ accepted_windows page ms2.
Proof.
  unfold accepted_windows.
  now rewrite map_app, filter_app, map_app.
Qed.

End ContextLoop.

(** ** The scan of [finditer] *)

Section Scan.

Variable p : list Re.atom.

(** Every reported offset is a match, and lies past the characters
    still to be skipped. *)
Lemma scan_sound s : forall pos skip m,
  In m (Re.scan p pos skip s) ->
  exists j, m = pos + Z.of_nat j /\ (skip <= j <= length s)%nat /\
            Re.match_here p (skipn j s) = true.
Proof.
  induction s as [|c s IH]; intros pos skip m Hin.
  - destruct skip; simpl in Hin; [|contradiction].
    destruct (Re.match_here p []) eqn:E; simpl in Hin; [|contradiction].
    destruct Hin as [<-|[]].
    exists 0%nat; simpl; repeat split; auto; lia.
  - destruct skip as [|k]; cbn [Re.scan] in Hin.
    + destruct (Re.match_here p (c :: s)) eqn:E.
      * destruct Hin as [<-|Hin].
        { exists 0%nat; simpl; repeat split; auto; lia. }
        destruct (IH _ _ _ Hin) as (j & -> & Hj & Hm).
        exists (S j); simpl; repeat split; auto; lia.
      * destruct (IH _ _ _ Hin) as (j & -> & Hj & Hm).
        exists (S j); simpl; repeat split; auto; lia.
    + destruct (IH _ _ _ Hin) as (j & -> & Hj & Hm).
      exists (S j); simpl; repeat split; auto; lia.
Qed.

(** The reported offsets increase, and two reported matches never
    share a character. *)
Lemma scan_sorted s : forall pos skip,
  StronglySorted (fun a b => a < b /\ a + Z.of_nat (length p) <= b)
                 (Re.scan p pos skip s).
Proof.
  induction s as [|c s IH]; intros pos skip.
  - destruct skip; simpl; [|constructor].
    destruct (Re.match_here p []); repeat constructor.
  - destruct skip as [|k]; cbn [Re.scan]; [|apply IH].
    destruct (Re.match_here p (c :: s)); [|apply IH].
    constructor; [apply IH|].
    apply Forall_forall; intros m Hin.
    apply scan_sound in Hin as (j & -> & Hj & _).
    lia.
Qed.

(** A match that is not reported overlaps a reported one that starts
    before it. *)
Lemma scan_complete s : forall pos skip j,
  (skip <= j <= length s)%nat ->
  Re.match_here p (skipn j s) = true ->
  In (pos + Z.of_nat j) (Re.scan p pos skip s) \/
  exists m, In m (Re.scan p pos skip s) /\
            m < pos + Z.of_nat j < m + Z.of_nat (length p).
Proof.
  induction s as [|c s IH]; intros pos skip j Hj Hm.
  - simpl in Hj.
    assert (j = 0%nat) by lia; assert (skip = 0%nat) by lia; subst.
    simpl in *; rewrite Hm; left; left; lia.
  - destruct skip as [|k]; cbn [Re.scan].
    + destruct j as [|j].
      * simpl in Hm; rewrite Hm; left; left; lia.
      * simpl in Hm, Hj.
        destruct (Re.match_here p (c :: s)) eqn:E.
        -- destruct (le_lt_dec (Nat.pred (length p)) j) as [Hge|Hlt].
           ++ destruct (IH (pos + 1) (Nat.pred (length p)) j) as [H|H];
                [lia | exact Hm | |].
              ** left; right.
                 now replace (pos + Z.of_nat (S j))
                   with (pos + 1 + Z.of_nat j) by lia.
              ** destruct H as (m & Hin & Hov).
                 right; exists m; split; [now right | lia].
           ++ right; exists pos; split; [now left | lia].
        -- destruct (IH (pos + 1) 0%nat j) as [H|H]; [lia | exact Hm | |].
           ++ left.
              now replace (pos + Z.of_nat (S j))
                with (pos + 1 + Z.of_nat j) by lia.
           ++ destruct H as (m & Hin & Hov).
              right; exists m; split; [exact Hin | lia].
    + destruct j as [|j]; [lia|].
      simpl in Hm, Hj.
      destruct (IH (pos + 1) k j) as [H|H]; [lia | exact Hm | |].
      * left.
        now replace (pos + Z.of_nat (S j))
          with (pos + 1 + Z.of_nat j) by lia.
      * destruct H as (m & Hin & Hov).
        right; exists m; split; [exact Hin | lia].
Qed.

End Scan.

(** A term without special characters is parsed as itself. *)
Lemma parse_plain term :
  forallb (fun c => negb (Re.special c)) term = true ->
  Re.parse term = Some (map Re.Lit term).
Proof.
  induction term as [|c term IH]; [reflexivity|].
  cbn [forallb]; intros H; apply andb_prop in H as [Hc Ht].
  cbn [Re.parse map]; rewrite (IH Ht).
  apply negb_true_iff in Hc; rewrite Hc.
  unfold Re.special in Hc; cbn [lit list_ascii_of_string existsb] in Hc.
  apply orb_false_elim in Hc as [Hdot _].
  now rewrite Hdot.
Qed.

(** Matching a sequence of literals is a prefix test on the
    lower-cased strings. *)
Lemma match_here_literals term s :
  Re.match_here (map Re.Lit term) s
  = Py.starts_with (map Re.lower term) (map Re.lower s).
Proof.
  revert s; induction term as [|c term IH]; intros s; [reflexivity|].
  destruct s as [|x s]; [reflexivity|].
  cbn [map Re.match_here Py.starts_with Re.atom_matches].
  now rewrite IH.
Qed.

Lemma literal_offsets_iff term body k :
  In k (literal_offsets term body) <->
  exists j, k = Z.of_nat j /\ (j <= length body)%nat /\
            Re.match_here (map Re.Lit term) (skipn j body) = true.
Proof.
  unfold literal_offsets, occurs_ignoring_case.
  rewrite in_map_iff; split.
  - intros (j & <- & Hj); apply filter_In in Hj as [_ Hj].
    apply andb_prop in Hj as [Hle Hm].
    apply Nat.leb_le in Hle.
    exists j; now rewrite match_here_literals.
  - intros (j & -> & Hle & Hm).
    exists j; split; [reflexivity|].
    apply filter_In; split; [apply in_seq; lia|].
    rewrite match_here_literals in Hm.
    rewrite Hm, andb_true_r; now apply Nat.leb_le.
Qed.

(** ** Marking an excerpt *)

Section Marking.

Implicit Types (c e pre rest : str).

(** A prefix test that fits in the first part of a string does not
    depend on what follows. *)
Lemma starts_with_within e x y z :
  Py.starts_with e (x ++ y) = true -> (length e <= length x)%nat ->
  Py.starts_with e (x ++ z) = true.
Proof.
  intros H Hlen; apply starts_with_inv in H as [r Hr].
  assert (Hx : x = e ++ skipn (length e) x).
  { rewrite <- (firstn_skipn (length e) x) at 1; f_equal.
    apply (f_equal (firstn (length e))) in Hr.
    rewrite firstn_app in Hr.
    replace (length e - length x)%nat with 0%nat in Hr by lia.
    rewrite firstn_O, app_nil_r in Hr; rewrite Hr.
    rewrite firstn_app, Nat.sub_diag, firstn_O, app_nil_r.
    apply firstn_all. }
  rewrite Hx, <- app_assoc; apply starts_with_app.
Qed.

(** A substring has a first occurrence, and [find] returns it. *)
Lemma first_occurrence e c :
  Py.contains e c = true ->
  exists pre rest,
    c = pre ++ e ++ rest /\ Py.find c e = Py.len pre /\
    forall j, (j < length pre)%nat ->
              Py.starts_with e (skipn j c) = false.
Proof.
  intros H; destruct (find_least _ _ H) as (k & Hk & Hlen & Hat & Hmin).
  apply starts_with_inv in Hat as [rest Hrest].
  exists (firstn k c), rest.
  assert (length (firstn k c) = k) by (rewrite length_firstn; lia).
  repeat split.
  - now rewrite <- Hrest, firstn_skipn.
  - unfold Py.len; congruence.
  - intros j Hj; apply Hmin; lia.
Qed.

(** No occurrence lies inside the text before the first one. *)
Lemma before_first_occurrence e pre rest :
  e <> [] ->
  (forall j, (j < length pre)%nat ->
             Py.starts_with e (skipn j (pre ++ e ++ rest)) = false) ->
  Py.contains e pre = false.
Proof.
  intros He Hfirst.
  destruct (Py.contains e pre) eqn:E; [|reflexivity].
  apply contains_iff in E as (x & y & ->).
  assert (Hlt : (length x < length (x ++ e ++ y))%nat).
  { rewrite !length_app; destruct e; [congruence|simpl; lia]. }
  specialize (Hfirst _ Hlt).
  rewrite <- !app_assoc, skipn_app, skipn_all, Nat.sub_diag in Hfirst.
  simpl in Hfirst; rewrite starts_with_app in Hfirst; discriminate.
Qed.

(** [s.replace(old, new)] is [new.join(pieces)] for pieces of [s]
    that [old] separates and that are free of [old]. *)
Lemma replace_pieces old new :
  old <> [] -> forall s,
  exists pieces,
    pieces <> [] /\ s = Py.join old pieces /\
    Py.replace s old new = Py.join new pieces /\
    Forall (fun piece => Py.contains old piece = false) pieces.
Proof.
  intros Hold s.
  remember (length s) as n eqn:Hn.
  revert s Hn; induction n as [n IH] using lt_wf_ind; intros s Hn.
  destruct (Py.contains old s) eqn:E.
  - destruct (first_occurrence _ _ E) as (pre & rest & Hs & _ & Hfirst).
    destruct (IH (length rest)) with (s := rest)
      as (pieces & Hne & Hj & Hr & Hall); [|reflexivity|].
    { subst; rewrite !length_app; destruct old; [congruence|simpl; lia]. }
    exists (pre :: pieces); repeat split.
    + discriminate.
    + simpl; destruct pieces; [congruence|]; now rewrite <- Hj.
    + rewrite Hs, replace_first, Hr; auto; [|now rewrite <- Hs].
      simpl; destruct pieces; [congruence|reflexivity].
    + constructor; [|exact Hall].
      apply (before_first_occurrence old pre rest Hold).
      now rewrite <- Hs.
  - exists [s]; repeat split; simpl; auto; [discriminate|].
    now apply replace_absent.
Qed.

(** With a non-empty excerpt found in the context, the highlighter
    marks, locates the excerpt in the marked string and cuts there. *)
Lemma highlighted_nonempty c e :
  e <> [] -> Py.contains e c = true ->
  generate_context_highlighted c (Some e)
  = let marked := Py.replace c e (bold e) in
    let m := Py.find marked e in
    map newline_to_space
        (Py.slice marked (Z.max 0 (m - 200)) (m + Py.len e + 200)).
Proof.
  intros He Hin; unfold generate_context_highlighted.
  rewrite Hin; cbn [negb].
  destruct e as [|x e]; [congruence|].
  fold (bold (x :: e)); cbv zeta.
  rewrite replace_newlines; unfold EXCERPT_HALF_SIZE.
  destruct (Z.gtb_spec (Py.find (Py.replace c (x :: e) (bold (x :: e)))
                                (x :: e)) 200).
  - now rewrite Z.max_r by lia.
  - now rewrite Z.max_l by lia.
Qed.

(** Where [find] lands in a string marked at the first occurrence:
    not after the marked copy, and not wholly before the place where
    the start sequence was put. *)
Lemma find_in_marked e pre rest tail :
  e <> [] ->
  (forall j, (j < length pre)%nat ->
             Py.starts_with e (skipn j (pre ++ e ++ rest)) = false) ->
  exists m : nat,
    Py.find (pre ++ bold e ++ tail) e = Z.of_nat m /\
    Py.starts_with e (skipn m (pre ++ bold e ++ tail)) = true /\
    (forall j, (j < m)%nat ->
               Py.starts_with e (skipn j (pre ++ bold e ++ tail)) = false) /\
    (m <= length pre + 4)%nat /\ (length pre < m + length e)%nat /\
    (~ In ESC e -> (length pre < m)%nat).
Proof.
  intros He Hfirst.
  set (marked := pre ++ bold e ++ tail).
  assert (Hat : Py.starts_with e (skipn (length pre + 4) marked) = true).
  { unfold marked, bold, BOLD_SEQUENCE_START.
    rewrite skipn_app, skipn_all2 by lia.
    replace (length pre + 4 - length pre)%nat with 4%nat by lia.
    cbn [app lit list_ascii_of_string skipn].
    rewrite <- app_assoc; apply starts_with_app. }
  assert (Hin : Py.contains e marked = true).
  { eapply contains_skipn, contains_here, Hat. }
  destruct (find_least _ _ Hin) as (m & Hm & Hlen & Hm_at & Hmin).
  assert (Hup : (m <= length pre + 4)%nat).
  { destruct (le_lt_dec m (length pre + 4)) as [|Hgt]; [assumption|].
    rewrite (Hmin _ Hgt) in Hat; discriminate. }
  assert (Hlow : (length pre < m + length e)%nat).
  { destruct (le_lt_dec (m + length e) (length pre)) as [Hle|]; [|assumption].
    exfalso.
    assert (Hm_lt : (m < length pre)%nat)
      by (destruct e; [congruence|simpl in Hle; lia]).
    specialize (Hfirst _ Hm_lt).
    unfold marked in Hm_at.
    rewrite skipn_app in Hm_at, Hfirst.
    replace (m - length pre)%nat with 0%nat in Hm_at, Hfirst by lia.
    rewrite skipn_O in Hm_at, Hfirst.
    rewrite (starts_with_within _ _ _ (e ++ rest) Hm_at) in Hfirst;
      [discriminate | rewrite length_skipn; lia]. }
  exists m; repeat split; auto.
  intros Hesc.
  destruct (le_lt_dec m (length pre)) as [Hle|]; [exfalso|assumption].
  apply Hesc.
  apply starts_with_inv in Hm_at as [r Hr].
  apply (f_equal (fun l => nth (length pre - m) l NL)) in Hr.
  unfold marked, bold, BOLD_SEQUENCE_START in Hr.
  rewrite skipn_app in Hr.
  replace (m - length pre)%nat with 0%nat in Hr by lia.
  rewrite skipn_O in Hr.
  rewrite app_nth2 in Hr by (rewrite length_skipn; lia).
  rewrite length_skipn, Nat.sub_diag in Hr; cbn [app nth] in Hr.
  rewrite app_nth1 in Hr by lia.
  rewrite Hr; apply nth_In; lia.
Qed.

Lemma bold_length e : length (bold e) = (length e + 8)%nat.
Proof.
  unfold bold; rewrite !length_app; simpl; lia.
Qed.

Lemma bold_without_newlines e :
  map newline_to_space (bold e) = bold (map newline_to_space e).
Proof. unfold bold; now rewrite !map_app. Qed.

(** The marked string and the offset found in it, for a non-empty
    excerpt that occurs in the context. *)
Lemma marked_shape c e :
  e <> [] -> Py.contains e c = true ->
  exists pre rest (m : nat),
    c = pre ++ e ++ rest /\
    (forall j, (j < length pre)%nat ->
               Py.starts_with e (skipn j c) = false) /\
    Py.replace c e (bold e)
    = pre ++ bold e ++ Py.replace rest e (bold e) /\
    Py.find (Py.replace c e (bold e)) e = Z.of_nat m /\
    Py.starts_with e (skipn m (Py.replace c e (bold e))) = true /\
    (forall j, (j < m)%nat ->
       Py.starts_with e (skipn j (Py.replace c e (bold e))) = false) /\
    (m <= length pre + 4)%nat /\ (length pre < m + length e)%nat /\
    (~ In ESC e -> (length pre < m)%nat).
Proof.
  intros He Hin.
  destruct (first_occurrence _ _ Hin) as (pre & rest & Hc & _ & Hfirst).
  assert (Hmarked : Py.replace c e (bold e)
                    = pre ++ bold e ++ Py.replace rest e (bold e)).
  { rewrite Hc at 1; apply replace_first; [exact He|now rewrite <- Hc]. }
  destruct (find_in_marked e pre rest (Py.replace rest e (bold e)) He)
    as (m & H); [now rewrite <- Hc|].
  exists pre, rest, m; rewrite Hmarked.
  repeat split; try apply H; auto.
Qed.

(** The empty excerpt: nothing is marked, and the cut is made at the
    start of the context. *)
Lemma highlighted_empty c :
  generate_context_highlighted c (Some [])
  = map newline_to_space (firstn 200 c).
Proof.
  unfold generate_context_highlighted.
  assert (Hin : Py.contains [] c = true) by (destruct c; reflexivity).
  assert (Hfind : Py.find c [] = 0) by (destruct c; reflexivity).
  rewrite Hin, Hfind; cbn [negb].
  rewrite replace_newlines.
  change (0 >? EXCERPT_HALF_SIZE) with false; cbv iota.
  now rewrite slice_from_0 by (unfold Py.len, EXCERPT_HALF_SIZE; simpl; lia).
Qed.

End Marking.

(** What [finditer] reports for a term without special characters:
    case-insensitive literal occurrences, in increasing order and
    without overlap, and every occurrence that is left out overlaps a
    reported one that starts before it. *)
Lemma finditer_plain term body :
  forallb (fun c => negb (Re.special c)) term = true ->
  exists ms,
    Re.finditer term body = Some ms /\
    (forall m, In m ms -> In m (literal_offsets term body)) /\
    StronglySorted (fun a b => a < b /\ a + Py.len term <= b) ms /\
    (forall k, In k (literal_offsets term body) ->
               In k ms \/ exists m, In m ms /\ m < k < m + Py.len term).
Proof.
  intros Hplain; unfold Re.finditer; rewrite (parse_plain _ Hplain).
  exists (Re.scan (map Re.Lit term) 0 0 body); cbn [option_map].
  assert (Hw : Z.of_nat (length (map Re.Lit term)) = Py.len term)
    by (unfold Py.len; now rewrite length_map).
  repeat split.
  - intros m Hin; apply scan_sound in Hin as (j & -> & Hj & Hm).
    apply literal_offsets_iff; exists j; repeat split; auto; lia.
  - rewrite <- Hw; apply scan_sorted.
  - intros k Hk; apply literal_offsets_iff in Hk as (j & -> & Hj & Hm).
    rewrite <- Hw.
    apply (scan_complete (map Re.Lit term) body 0 0%nat j); auto; lia.
Qed.

(** * The claims *)

(** C1.  In [generate_context], for every occurrence of the search
    term that the library reports at offset [s] of the page body, the
    window is [body[s-300 : s+300]] when [s] is at least 300, that is
    600 characters from offset [s - 300] on, and when [s] is below 300
    it starts at 0 and ends at [s + s], that is the first [s + s]
    characters of the body and not the first [s + 300].  The windows
    of the loop, and through them the context that is returned, are
    these windows, for every list of offsets and every search term. *)
Theorem generate_context_windows (page : Page) :
  (forall s,
     context_window (content page) s = mirrored_window (content page) s) /\
  (forall s,
     300 <= s ->
     mirrored_window (content page) s
     = firstn 600 (skipn (Z.to_nat (s - 300)) (content page))) /\
  (forall s,
     0 <= s < 300 ->
     mirrored_window (content page) s
     = firstn (Z.to_nat (s + s)) (content page)) /\
  (forall matches,
     collect_contexts page matches []
     = firstn 3
         (map Py.strip
            (filter (fun w => negb (Py.contains w (summary page)))
               (map (mirrored_window (content page)) matches)))) /\
  (forall finditer term matches,
     finditer term (content page) = Some matches ->
     generate_context finditer page term
     = Some
         (firstn 4000
            (Py.join CONTEXT_DIVIDER
               (Py.strip (summary page)
                :: firstn 3
                     (map Py.strip
                        (filter
                           (fun w => negb (Py.contains w (summary page)))
                           (map (mirrored_window (content page))
                                matches))))))).
Proof.
  assert (Hwin : forall s,
             context_window (content page) s
             = mirrored_window (content page) s).
  { intros s; unfold context_window, mirrored_window, CONTEXT_HALF_SIZE.
    destruct (Z.gtb_spec s 300); destruct (Z.ltb_spec s 300);
      try lia; try reflexivity.
    replace s with 300 by lia; reflexivity. }
  assert (Hloop : forall matches,
             collect_contexts page matches []
             = firstn 3
                 (map Py.strip
                    (filter (fun w => negb (Py.contains w (summary page)))
                       (map (mirrored_window (content page)) matches)))).
  { intros matches; rewrite collect_contexts_first_three.
    unfold accepted_windows; do 3 f_equal.
    apply map_ext, Hwin. }
  split; [exact Hwin|]; split; [|split; [|split; [exact Hloop|]]].
  - intros s Hs; unfold mirrored_window.
    destruct (Z.ltb_spec s 300); [lia|].
    rewrite slice_nonneg by lia; f_equal; lia.
  - intros s Hs; unfold mirrored_window.
    destruct (Z.ltb_spec s 300); [|lia].
    apply slice_from_0; lia.
  - intros finditer term matches Hms.
    unfold generate_context; rewrite Hms; cbn [option_map].
    unfold context_of_matches, CONTEXT_CHAR_LIMIT.
    rewrite slice_from_0, Hloop by lia; reflexivity.
Qed.

Lemma generate_context_windows_witness :
  Re.finditer (lit "moon")
              (lit "xx moon " ++ repeat "a"%char 320 ++ lit " moon "
                   ++ repeat "b"%char 400)
  = Some [3; 329] /\
  generate_context
    Re.finditer
    (mkPage [] (lit "xx moon " ++ repeat "a"%char 320 ++ lit " moon "
                    ++ repeat "b"%char 400)
            (lit "s") [])
    (lit "moon")
  = Some (lit "s [...] xx moo [...] " ++ repeat "a"%char 299
              ++ lit " moon " ++ repeat "b"%char 295).
Proof.
  split; [vm_compute; reflexivity|].
  etransitivity.
  - apply (proj2 (proj2 (proj2 (proj2
             (generate_context_windows
                (mkPage [] (lit "xx moon " ++ repeat "a"%char 320
                                ++ lit " moon " ++ repeat "b"%char 400)
                        (lit "s") [])))))
            Re.finditer (lit "moon") [3; 329]).
    vm_compute; reflexivity.
  - vm_compute; reflexivity.
Defined.

(** C2 (as amended).  In [generate_context], each window is compared
    with the page summary as it was cut, before any trimming: a window
    wholly contained in the summary is skipped and does not count
    toward the three; a window that passes is then trimmed of leading
    and trailing whitespace and accepted, until three are accepted. *)
Theorem collect_contexts_tests_then_trims (page : Page) (matches : list Z) :
  collect_contexts page matches []
  = firstn 3
      (map Py.strip
           (filter (fun w => negb (Py.contains w (summary page)))
                   (map (context_window (content page)) matches))).
Proof. apply collect_contexts_first_three. Qed.

(** C2, the claim as written fails: the window [" ab "] is not in the
    summary ["ab"], so it is accepted, although its trimmed form is
    wholly contained in the summary. *)
Lemma trimmed_excerpt_of_summary_accepted :
  Re.finditer (lit "b") (lit " ab ") = Some [2] /\
  context_window (lit " ab ") 2 = lit " ab " /\
  Py.contains (Py.strip (context_window (lit " ab ") 2)) (lit "ab") = true /\
  collect_contexts (mkPage [] (lit " ab ") (lit "ab") []) [2] []
  = [lit "ab"] /\
  generate_context Re.finditer (mkPage [] (lit " ab ") (lit "ab") [])
                   (lit "b")
  = Some (lit "ab [...] ab").
Proof. repeat split; reflexivity. Qed.

(** C3 (as amended).  In [generate_context_highlighted], when the
    excerpt is a non-empty literal substring of the context, every
    occurrence of the excerpt met by a left-to-right scan of the
    context that resumes after each occurrence is replaced by the
    excerpt between the bold sequences: the context and the marked
    string are the same pieces, free of the excerpt, joined by the
    excerpt and by the bold excerpt.  The offset [m] is then the first
    offset of the excerpt in the marked string, and the result is cut
    from the marked string: from [m - 200] to [m + len(excerpt) + 200]
    when [m] is above 200, and from 0 to [m + len(excerpt) + 200]
    otherwise; newlines of the cut become spaces. *)
Theorem highlight_marks_then_abridges (context excerpt : str) :
  excerpt <> [] ->
  (exists pre rest, context = pre ++ excerpt ++ rest) ->
  let marked := Py.replace context excerpt (bold excerpt) in
  (exists pieces,
     context = Py.join excerpt pieces /\
     marked = Py.join (bold excerpt) pieces /\
     Forall (fun piece => Py.contains excerpt piece = false) pieces) /\
  exists m : nat,
    Py.find marked excerpt = Z.of_nat m /\
    Py.starts_with excerpt (skipn m marked) = true /\
    (forall j, (j < m)%nat ->
               Py.starts_with excerpt (skipn j marked) = false) /\
    ((200 < m)%nat ->
     generate_context_highlighted context (Some excerpt)
     = map newline_to_space
           (Py.slice marked (Z.of_nat m - 200)
                     (Z.of_nat m + Py.len excerpt + 200))) /\
    ((m <= 200)%nat ->
     generate_context_highlighted context (Some excerpt)
     = map newline_to_space
           (Py.slice marked 0 (Z.of_nat m + Py.len excerpt + 200))).
Proof.
  intros He Hsub marked.
  assert (Hin : Py.contains excerpt context = true) by now apply contains_iff.
  split.
  - destruct (replace_pieces excerpt (bold excerpt) He context)
      as (pieces & _ & Hj & Hr & Hall).
    now exists pieces.
  - destruct (marked_shape context excerpt He Hin)
      as (pre & rest & m & _ & _ & _ & Hm & Hat & Hmin & _).
    exists m; fold marked in Hm, Hat, Hmin.
    repeat split; auto; intros Hcase;
      rewrite (highlighted_nonempty _ _ He Hin); cbv zeta;
      fold marked; rewrite Hm; do 2 f_equal; lia.
Qed.

Lemma highlight_marks_then_abridges_witness :
  lit "ab" <> [] /\
  (exists pre rest, lit "x ab y ab" = pre ++ lit "ab" ++ rest) /\
  Py.find (Py.replace (lit "x ab y ab") (lit "ab") (bold (lit "ab")))
          (lit "ab") = 6 /\
  generate_context_highlighted (lit "x ab y ab") (Some (lit "ab"))
  = lit "x " ++ bold (lit "ab") ++ lit " y " ++ bold (lit "ab").
Proof.
  assert (He : lit "ab" <> []) by discriminate.
  assert (Hsub : exists pre rest, lit "x ab y ab" = pre ++ lit "ab" ++ rest)
    by (exists (lit "x "), (lit " y ab"); reflexivity).
  destruct (highlight_marks_then_abridges _ _ He Hsub)
    as (_ & m & Hm & _ & _ & _ & Hcut).
  assert (m = 6%nat) by (apply Nat2Z.inj; rewrite <- Hm; reflexivity).
  subst m.
  split; [exact He|]; split; [exact Hsub|]; split; [exact Hm|].
  rewrite Hcut by lia; reflexivity.
Defined.

(** C3, the claim as written fails on the empty excerpt, which is a
    substring of every context: nothing is marked, although [replace]
    with an empty pattern would put the bold sequences around every
    character; the result is not a cut of that marked string. *)
Lemma empty_excerpt_not_marked :
  Py.contains [] (lit "abc") = true /\
  generate_context_highlighted (lit "abc") (Some []) = lit "abc" /\
  generate_context_highlighted (lit "abc") (Some [])
  <> map newline_to_space
         (Py.slice (Py.replace (lit "abc") [] (bold []))
                   0 (Py.find (Py.replace (lit "abc") [] (bold [])) []
                      + Py.len [] + 200)).
Proof. repeat split; discriminate. Qed.

(** C4 (as amended).  For every context and every excerpt that is a
    substring of it, the string returned by
    [generate_context_highlighted] has at most [len(excerpt) + 400]
    characters.  When the excerpt is moreover non-empty, and either has
    at most 193 characters or is free of the escape character, the
    returned string contains the excerpt, its newlines turned into
    spaces, between the two bold sequences. *)
Theorem highlight_window_holds_excerpt (context excerpt : str) :
  (exists pre rest, context = pre ++ excerpt ++ rest) ->
  Py.len (generate_context_highlighted context (Some excerpt))
  <= Py.len excerpt + 400 /\
  (excerpt <> [] ->
   (length excerpt <= 193)%nat \/ ~ In ESC excerpt ->
   exists x y,
     generate_context_highlighted context (Some excerpt)
     = x ++ bold (map newline_to_space excerpt) ++ y).
Proof.
  intros Hsub.
  assert (Hin : Py.contains excerpt context = true) by now apply contains_iff.
  destruct excerpt as [|c0 e0].
  { split; [|congruence].
    rewrite highlighted_empty; unfold Py.len.
    rewrite length_map, length_firstn; cbn [length]; lia. }
  set (e := c0 :: e0) in *.
  assert (He : e <> []) by discriminate.
  rewrite (highlighted_nonempty _ _ He Hin); cbv zeta.
  destruct (marked_shape context e He Hin)
    as (pre & rest & m & _ & _ & Hmarked & Hm & _ & _ & Hup & Hlow & Hesc).
  rewrite Hm, Hmarked; split.
  - unfold Py.len at 1; rewrite length_map.
    fold (Py.len (Py.slice (pre ++ bold e ++ Py.replace rest e (bold e))
                           (Z.max 0 (Z.of_nat m - 200))
                           (Z.of_nat m + Py.len e + 200))).
    etransitivity; [apply slice_len_le; unfold Py.len; lia|].
    unfold Py.len; lia.
  - intros _ Hcond.
    assert (Hm_low : (length pre <= m + 192)%nat).
    { destruct Hcond as [Hshort|Hfree]; [lia|].
      specialize (Hesc Hfree); lia. }
    destruct (slice_covers pre (bold e) (Py.replace rest e (bold e))
                (Z.max 0 (Z.of_nat m - 200))
                (Z.of_nat m + Py.len e + 200)) as (x & y & Hcut).
    + unfold Py.len; lia.
    + unfold Py.len; rewrite bold_length; lia.
    + rewrite Hcut, !map_app, bold_without_newlines.
      now exists (map newline_to_space x), (map newline_to_space y).
Qed.

Lemma highlight_window_holds_excerpt_witness :
  (exists pre rest, lit "x ab y" = pre ++ lit "ab" ++ rest) /\
  lit "ab" <> [] /\
  ((length (lit "ab") <= 193)%nat \/ ~ In ESC (lit "ab")) /\
  Py.len (generate_context_highlighted (lit "x ab y") (Some (lit "ab")))
  <= Py.len (lit "ab") + 400 /\
  exists x y,
    generate_context_highlighted (lit "x ab y") (Some (lit "ab"))
    = x ++ bold (map newline_to_space (lit "ab")) ++ y.
Proof.
  assert (Hsub : exists pre rest, lit "x ab y" = pre ++ lit "ab" ++ rest)
    by (exists (lit "x "), (lit " y"); reflexivity).
  assert (He : lit "ab" <> []) by discriminate.
  assert (Hshort : (length (lit "ab") <= 193)%nat \/ ~ In ESC (lit "ab"))
    by (left; simpl; lia).
  destruct (highlight_window_holds_excerpt _ _ Hsub) as [Hlen Hhas].
  split; [exact Hsub|]; split; [exact He|]; split; [exact Hshort|].
  split; [exact Hlen | exact (Hhas He Hshort)].
Defined.

(** C4, the claim as written fails on the empty excerpt: the returned
    string holds no bold sequence at all. *)
Lemma empty_excerpt_window_without_markers :
  (exists pre rest, lit "abc" = pre ++ [] ++ rest) /\
  generate_context_highlighted (lit "abc") (Some []) = lit "abc" /\
  ~ exists x y,
      generate_context_highlighted (lit "abc") (Some [])
      = x ++ bold [] ++ y.
Proof.
  repeat split.
  - exists [], (lit "abc"); reflexivity.
  - intros H; apply contains_iff in H; discriminate.
Qed.

(** Why C4 is stated with newlines turned into spaces: the excerpt
    itself is subject to the final replacement. *)
Example excerpt_newline_becomes_space :
  generate_context_highlighted ["a"; NL; "b"]%char
                               (Some ["a"; NL; "b"]%char)
  = bold ["a"; SP; "b"]%char.
Proof. reflexivity. Qed.

(** Why C4 asks for a short excerpt or one without the escape
    character: an excerpt of 300 letters and an escape is found at
    offset 0 of the marked string, across the start sequence put 300
    characters further, and the cut ends inside the marked copy. *)
Example long_excerpt_with_escape_cut_off :
  Py.contains (repeat "a"%char 300 ++ [ESC])
              (repeat "a"%char 600 ++ [ESC]) = true /\
  Py.find (Py.replace (repeat "a"%char 600 ++ [ESC])
                      (repeat "a"%char 300 ++ [ESC])
                      (bold (repeat "a"%char 300 ++ [ESC])))
          (repeat "a"%char 300 ++ [ESC]) = 0 /\
  Py.contains (bold (repeat "a"%char 300 ++ [ESC]))
              (generate_context_highlighted
                 (repeat "a"%char 600 ++ [ESC])
                 (Some (repeat "a"%char 300 ++ [ESC]))) = false.
Proof. vm_compute; repeat split. Qed.

(** The offset found in the marked string need not be that of the
    marked copy: here the excerpt is met inside the start sequence. *)
Example offset_found_inside_start_sequence :
  Py.replace (lit "x[1m") (lit "[1m") (bold (lit "[1m"))
  = lit "x" ++ bold (lit "[1m") /\
  Py.find (Py.replace (lit "x[1m") (lit "[1m") (bold (lit "[1m")))
          (lit "[1m") = 2.
Proof. split; reflexivity. Qed.

(** C5 (as amended).  In [generate_context], for every page body and
    every search term without a character that is special in a
    regular expression, the recorded match offsets are start offsets
    of case-insensitive occurrences of the term taken as a literal
    string, in left-to-right order and without two recorded
    occurrences overlapping; an occurrence that is not recorded
    overlaps a recorded one that starts before it. *)
Theorem finditer_plain_term (term body : str) :
  forallb (fun c => negb (Re.special c)) term = true ->
  exists ms,
    Re.finditer term body = Some ms /\
    (forall m, In m ms -> In m (literal_offsets term body)) /\
    StronglySorted (fun a b => a < b /\ a + Py.len term <= b) ms /\
    (forall k, In k (literal_offsets term body) ->
               In k ms \/ exists m, In m ms /\ m < k < m + Py.len term).
Proof. apply finditer_plain. Qed.

Lemma finditer_plain_term_witness :
  forallb (fun c => negb (Re.special c)) (lit "Ab") = true /\
  exists ms,
    Re.finditer (lit "Ab") (lit "xabABab") = Some ms /\
    (forall m, In m ms -> In m (literal_offsets (lit "Ab") (lit "xabABab"))).
Proof.
  split; [reflexivity|].
  destruct (finditer_plain_term (lit "Ab") (lit "xabABab") eq_refl)
    as (ms & Hms & Hsound & _).
  exists ms; split; [exact Hms | exact Hsound].
Defined.

(** C5, the claim as written fails: the occurrence of ["aa"] at offset
    1 of ["aaa"] is not recorded, and the term ["a.c"], which does not
    occur in ["abc"] as a literal string, is recorded at offset 0. *)
Lemma finditer_not_every_literal_occurrence :
  Re.finditer (lit "aa") (lit "aaa") = Some [0] /\
  literal_offsets (lit "aa") (lit "aaa") = [0; 1] /\
  Re.finditer (lit "a.c") (lit "abc") = Some [0] /\
  literal_offsets (lit "a.c") (lit "abc") = [] /\
  Re.finditer (lit "aa") (lit "aaa")
  <> Some (literal_offsets (lit "aa") (lit "aaa")).
Proof. repeat split; discriminate. Qed.



(** C7 (as amended).  When the search term has no occurrence in the
    page body, [generate_context] returns the page summary trimmed of
    leading and trailing whitespace and cut to 4000 characters, with no
    divider; and for every list of offsets the loop accepts at most
    three windows and stops at the third. *)
Theorem generate_context_no_match_and_limit (page : Page) :
  context_of_matches page [] = firstn 4000 (Py.strip (summary page)) /\
  (forall finditer term,
     finditer term (content page) = Some [] ->
     generate_context finditer page term
     = Some (firstn 4000 (Py.strip (summary page)))) /\
  (forall finditer term,
     as_described finditer ->
     forallb (fun c => negb (Re.special c)) term = true ->
     literal_offsets term (content page) = [] ->
     generate_context finditer page term
     = Some (firstn 4000 (Py.strip (summary page)))) /\
  (forall matches, (length (collect_contexts page matches []) <= 3)%nat) /\
  (forall ms1 ms2,
     length (collect_contexts page ms1 []) = 3%nat ->
     collect_contexts page (ms1 ++ ms2) [] = collect_contexts page ms1 []).
Proof.
  assert (H0 : context_of_matches page []
               = firstn 4000 (Py.strip (summary page))).
  { unfold context_of_matches, CONTEXT_CHAR_LIMIT; cbn [collect_contexts Py.join].
    now rewrite slice_from_0 by lia. }
  assert (Hnone : forall finditer term,
             finditer term (content page) = Some [] ->
             generate_context finditer page term
             = Some (firstn 4000 (Py.strip (summary page)))).
  { intros finditer term H; unfold generate_context; rewrite H.
    cbn [option_map]; now rewrite H0. }
  repeat split; auto.
  - intros finditer term Hlib Hplain Hno; apply Hnone, Hlib.
    destruct (finditer_plain term (content page) Hplain)
      as (ms & Hms & Hsound & _).
    destruct ms as [|m ms]; [exact Hms|].
    specialize (Hsound m (or_introl eq_refl)).
    rewrite Hno in Hsound; contradiction.
  - intros; rewrite collect_contexts_first_three, length_firstn; lia.
  - intros ms1 ms2; rewrite !collect_contexts_first_three.
    rewrite accepted_windows_app, length_firstn; intros Hfull.
    rewrite firstn_app.
    replace (3 - length (accepted_windows page ms1))%nat with 0%nat by lia.
    now rewrite firstn_O, app_nil_r.
Qed.

Lemma generate_context_no_match_and_limit_witness :
  (Re.finditer (lit "x") (lit "abc") = Some [] /\
   generate_context Re.finditer (mkPage [] (lit "abc") (lit " s ") [])
                    (lit "x")
   = Some (lit "s")) /\
  (length (collect_contexts (mkPage [] (lit "abcdefgh") (lit "s") [])
                            [1; 2; 3] []) = 3%nat /\
   collect_contexts (mkPage [] (lit "abcdefgh") (lit "s") [])
                    ([1; 2; 3] ++ [4]) []
   = [lit "ab"; lit "abcd"; lit "abcdef"]) /\
  (as_described Re.finditer /\
   forallb (fun c => negb (Re.special c)) (lit "moon") = true /\
   literal_offsets (lit "moon") (lit "The sun.") = [] /\
   generate_context Re.finditer (mkPage [] (lit "The sun.") (lit " s ") [])
                    (lit "moon")
   = Some (lit "s")).
Proof.
  split; [|split]; (split; [try reflexivity|]).
  - destruct (generate_context_no_match_and_limit
                (mkPage [] (lit "abc") (lit " s ") [])) as (_ & H & _).
    rewrite (H Re.finditer (lit "x") eq_refl); reflexivity.
  - destruct (generate_context_no_match_and_limit
                (mkPage [] (lit "abcdefgh") (lit "s") []))
      as (_ & _ & _ & _ & H).
    rewrite (H [1; 2; 3] [4] eq_refl); reflexivity.
  - intros pattern string ms H; exact H.
  - split; [reflexivity|]; split; [reflexivity|].
    destruct (generate_context_no_match_and_limit
                (mkPage [] (lit "The sun.") (lit " s ") []))
      as (_ & _ & H & _).
    rewrite (H Re.finditer (lit "moon")
               (fun pattern string ms E => E) eq_refl eq_refl).
    reflexivity.
Defined.

(** C7, the claim as written fails: without a match the summary
    [" s "] is returned trimmed, not as it is. *)
Lemma summary_trimmed_without_match :
  literal_offsets (lit "x") (lit "abc") = [] /\
  Re.finditer (lit "x") (lit "abc") = Some [] /\
  generate_context Re.finditer (mkPage [] (lit "abc") (lit " s ") [])
                   (lit "x")
  = Some (lit "s") /\
  Py.slice (lit " s ") 0 4000 = lit " s " /\
  generate_context Re.finditer (mkPage [] (lit "abc") (lit " s ") [])
                   (lit "x")
  <> Some (Py.slice (lit " s ") 0 4000).
Proof. repeat split; discriminate. Qed.

(** C8.  For every context, [generate_context_highlighted] called
    with no excerpt, or with an excerpt that is not a literal substring
    of the context, returns the context with every newline replaced
    by a space and no other change. *)
Theorem highlight_without_excerpt (context : str) :
  generate_context_highlighted context None
  = map newline_to_space context /\
  (forall excerpt,
     (~ exists pre rest, context = pre ++ excerpt ++ rest) ->
     generate_context_highlighted context (Some excerpt)
     = map newline_to_space context).
Proof.
  split; [apply replace_newlines|].
  intros excerpt Hnot; unfold generate_context_highlighted.
  destruct (Py.contains excerpt context) eqn:E.
  - exfalso; apply Hnot; now apply contains_iff.
  - apply replace_newlines.
Qed.

Lemma highlight_without_excerpt_witness :
  (~ exists pre rest, ["a"; NL; "b"]%char = pre ++ lit "x" ++ rest) /\
  generate_context_highlighted ["a"; NL; "b"]%char (Some (lit "x"))
  = ["a"; SP; "b"]%char.
Proof.
  assert (Hnot : ~ exists pre rest,
                     ["a"; NL; "b"]%char = pre ++ lit "x" ++ rest).
  { intros H; apply contains_iff in H; discriminate. }
  split; [exact Hnot|].
  etransitivity;
    [exact (proj2 (highlight_without_excerpt _) _ Hnot) | reflexivity].
Defined.

(** C9.  [generate_excerpt] returns nothing whenever the sanitized
    model output is not an exact substring of the context, and an
    excerpt it returns is the sanitized output and an exact substring
    of the context. *)
Theorem generate_excerpt_substring (context reply : str) :
  ((~ exists pre rest, context = pre ++ sanitize_response reply ++ rest) ->
   generate_excerpt context reply = None) /\
  (forall excerpt,
     generate_excerpt context reply = Some excerpt ->
     excerpt = sanitize_response reply /\
     exists pre rest, context = pre ++ excerpt ++ rest).
Proof.
  unfold generate_excerpt, gen_completion.
  destruct (Py.contains (sanitize_response reply) context) eqn:E; split.
  - intros Hnot; exfalso; apply Hnot; now apply contains_iff.
  - intros excerpt [= <-]; split; [reflexivity | now apply contains_iff].
  - reflexivity.
  - discriminate.
Qed.

Lemma generate_excerpt_substring_witness :
  ((~ exists pre rest,
        lit "hello world" = pre ++ sanitize_response (lit "World") ++ rest) /\
   generate_excerpt (lit "hello world") (lit "World") = None) /\
  (generate_excerpt (lit "hello world")
                    (SP :: DQUOTE :: lit "world" ++ [DQUOTE; NL])
   = Some (lit "world") /\
   exists pre rest, lit "hello world" = pre ++ lit "world" ++ rest).
Proof.
  split.
  - assert (Hnot : ~ exists pre rest,
                       lit "hello world"
                       = pre ++ sanitize_response (lit "World") ++ rest).
    { intros H; apply contains_iff in H; discriminate. }
    split; [exact Hnot|].
    exact (proj1 (generate_excerpt_substring _ _) Hnot).
  - split; [reflexivity|].
    exact (proj2 (proj2 (generate_excerpt_substring (lit "hello world")
                           (SP :: DQUOTE :: lit "world" ++ [DQUOTE; NL]))
                        (lit "world") eq_refl)).
Defined.

(** C10.  For every context, [generate_context_highlighted] called
    with the empty excerpt, which [generate_excerpt] returns when the
    sanitized model output is empty, inserts no bold sequence: it
    returns the first 200 characters of the context (the whole context
    when it is shorter) with newlines replaced by spaces. *)
Theorem highlight_empty_excerpt (context : str) :
  generate_context_highlighted context (Some [])
  = map newline_to_space (firstn 200 context) /\
  Py.len (generate_context_highlighted context (Some []))
  = Z.min 200 (Py.len context) /\
  generate_excerpt context [] = Some [] /\
  generate_excerpt context (lit "  ") = Some [].
Proof.
  rewrite highlighted_empty; repeat split.
  - unfold Py.len; rewrite length_map, length_firstn; lia.
  - unfold generate_excerpt; cbn.
    now destruct context.
  - unfold generate_excerpt; cbn.
    now destruct context.
Qed.


(** * Further properties of the program *)

(** ** Trimming *)

Section Trimming.

Implicit Types (s t : str) (c : ascii).

Lemma lstrip_split s :
  exists spaces, s = spaces ++ Py.lstrip s.
Proof.
  induction s as [|c s [spaces IH]]; [now exists []|].
  cbn [Py.lstrip]; destruct (Py.isspace c).
  - exists (c :: spaces); simpl; now rewrite <- IH.
  - now exists [].
Qed.

Lemma lstrip_fixed s :
  Py.lstrip s = s <->
  match s with [] => True | c :: _ => Py.isspace c = false end.
Proof.
  destruct s as [|c s]; [easy|]; cbn [Py.lstrip].
  destruct (Py.isspace c) eqn:E; [|easy].
  split; [|discriminate].
  intros H; destruct (lstrip_split s) as [spaces Hs].
  apply (f_equal (@length ascii)) in H, Hs.
  rewrite length_app in Hs; simpl in H; lia.
Qed.

Lemma lstrip_idem s : Py.lstrip (Py.lstrip s) = Py.lstrip s.
Proof.
  induction s as [|c s IH]; [reflexivity|]; cbn [Py.lstrip].
  destruct (Py.isspace c) eqn:E; [exact IH|].
  cbn [Py.lstrip]; now rewrite E.
Qed.

Lemma rstrip_fixed s : Py.rstrip s = s <-> Py.lstrip (rev s) = rev s.
Proof.
  unfold Py.rstrip; split; intros H.
  - rewrite <- H at 2; now rewrite rev_involutive.
  - now rewrite H, rev_involutive.
Qed.

Lemma rstrip_split s : exists spaces, s = Py.rstrip s ++ spaces.
Proof.
  destruct (lstrip_split (rev s)) as [spaces H].
  exists (rev spaces); unfold Py.rstrip.
  now rewrite <- rev_app_distr, <- H, rev_involutive.
Qed.

Lemma lstrip_snoc s c :
  Py.isspace c = false -> Py.lstrip (s ++ [c]) = Py.lstrip s ++ [c].
Proof.
  intros Hc; induction s as [|a s IH]; simpl; [now rewrite Hc|].
  now destruct (Py.isspace a).
Qed.

(** What follows a first character that is no whitespace does not
    change the start of the string when its end is trimmed. *)
Lemma rstrip_cons c s :
  Py.isspace c = false -> Py.rstrip (c :: s) = c :: Py.rstrip s.
Proof.
  intros Hc; unfold Py.rstrip; cbn [rev].
  now rewrite lstrip_snoc, rev_app_distr by exact Hc.
Qed.

Lemma strip_split s : exists a b, s = a ++ Py.strip s ++ b.
Proof.
  destruct (lstrip_split s) as [a Ha].
  destruct (rstrip_split (Py.lstrip s)) as [b Hb].
  exists a, b; unfold Py.strip; now rewrite <- Hb.
Qed.

Lemma strip_length s : (length (Py.strip s) <= length s)%nat.
Proof.
  destruct (strip_split s) as (a & b & H).
  rewrite H at 2; rewrite !length_app; lia.
Qed.

Lemma strip_In s c : In c (Py.strip s) -> In c s.
Proof.
  destruct (strip_split s) as (a & b & H); intros Hin.
  rewrite H; apply in_or_app; right; apply in_or_app; now left.
Qed.

(** A trimmed string starts and ends with characters that are no
    whitespace. *)
Lemma strip_edges s :
  Py.lstrip (Py.strip s) = Py.strip s /\ Py.rstrip (Py.strip s) = Py.strip s.
Proof.
  unfold Py.strip; split.
  - assert (H := lstrip_idem s); apply lstrip_fixed in H.
    apply lstrip_fixed.
    destruct (Py.lstrip s) as [|c t]; [exact I|].
    now rewrite rstrip_cons.
  - apply rstrip_fixed; unfold Py.rstrip.
    rewrite rev_involutive; apply lstrip_idem.
Qed.

Lemma strip_of_trimmed s :
  Py.lstrip s = s -> Py.rstrip s = s -> Py.strip s = s.
Proof. unfold Py.strip; now intros -> ->. Qed.

Lemma strip_idem s : Py.strip (Py.strip s) = Py.strip s.
Proof. apply strip_of_trimmed; apply strip_edges. Qed.

(** Dropping characters keeps a string trimmed when its first and
    last characters stay. *)
Lemma lstrip_filter (keep : ascii -> bool) s :
  (forall c, Py.isspace c = false -> In c s -> keep c = true) ->
  Py.lstrip s = s -> Py.lstrip (filter keep s) = filter keep s.
Proof.
  intros Hkeep H; apply lstrip_fixed in H; apply lstrip_fixed.
  destruct s as [|c s]; [exact I|]; cbn [filter].
  now rewrite (Hkeep c H (or_introl eq_refl)).
Qed.

Lemma trimmed_filter (keep : ascii -> bool) s :
  (forall c, Py.isspace c = false -> In c s -> keep c = true) ->
  Py.lstrip s = s -> Py.rstrip s = s ->
  Py.strip (filter keep s) = filter keep s.
Proof.
  intros Hkeep Hl Hr; apply strip_of_trimmed.
  - now apply lstrip_filter.
  - apply rstrip_fixed; rewrite <- filter_rev.
    apply lstrip_filter; [|now apply rstrip_fixed].
    intros c Hc Hin; apply Hkeep; [exact Hc | now apply in_rev].
Qed.

End Trimming.

(** ** [sanitize_response] *)

Lemma replace_char_drop s c :
  Py.replace s [c] [] = filter (fun x => negb (Ascii.eqb x c)) s.
Proof.
  rewrite replace_char; induction s as [|x s IH]; [reflexivity|].
  cbn [flat_map filter]; rewrite IH, (Ascii.eqb_sym c x).
  now destruct (Ascii.eqb x c).
Qed.

Lemma sanitize_response_filter response :
  sanitize_response response = filter kept_char (Py.strip response).
Proof.
  unfold sanitize_response; rewrite !replace_char_drop.
  induction (Py.strip response) as [|x s IH]; [reflexivity|].
  cbn [filter]; unfold kept_char at 1.
  destruct (Ascii.eqb x NL); cbn [negb andb]; [exact IH|].
  cbn [filter]; destruct (Ascii.eqb x DQUOTE); cbn [negb];
    now rewrite IH.
Qed.

Lemma kept_char_iff c : kept_char c = true <-> c <> NL /\ c <> DQUOTE.
Proof.
  unfold kept_char; rewrite andb_true_iff, !negb_true_iff.
  now rewrite !Ascii.eqb_neq.
Qed.

Lemma sanitize_response_chars response c :
  In c (sanitize_response response) ->
  In c response /\ c <> NL /\ c <> DQUOTE.
Proof.
  rewrite sanitize_response_filter; intros H.
  apply filter_In in H as [Hin Hk].
  split; [now apply strip_In | now apply kept_char_iff].
Qed.

(** X1.  [sanitize_response] returns what is left of the trimmed
    reply once newlines and double quotes are dropped: its result
    holds neither character, and is no longer than the reply. *)
Theorem sanitize_response_clean (response : str) :
  sanitize_response response = filter kept_char (Py.strip response) /\
  ~ In NL (sanitize_response response) /\
  ~ In DQUOTE (sanitize_response response) /\
  Py.len (sanitize_response response) <= Py.len response.
Proof.
  split; [apply sanitize_response_filter|]; repeat split.
  - intros H; now apply sanitize_response_chars in H as (_ & H & _).
  - intros H; now apply sanitize_response_chars in H as (_ & _ & H).
  - rewrite sanitize_response_filter; unfold Py.len.
    pose proof (filter_length_le kept_char (Py.strip response)).
    pose proof (strip_length response); lia.
Qed.

(** X2.  Sanitizing a sanitized reply only trims it again; when the
    reply holds no double quote the second pass changes nothing.  With
    double quotes it can: dropping a quote at an end of the trimmed
    reply can uncover whitespace. *)
Theorem sanitize_response_again (response : str) :
  sanitize_response (sanitize_response response)
  = Py.strip (sanitize_response response) /\
  (~ In DQUOTE response ->
   sanitize_response (sanitize_response response)
   = sanitize_response response).
Proof.
  assert (Hstrip : sanitize_response (sanitize_response response)
                   = Py.strip (sanitize_response response)).
  { rewrite (sanitize_response_filter (sanitize_response response)).
    apply forallb_filter_id, forallb_forall; intros c Hc.
    apply strip_In, sanitize_response_chars in Hc.
    now apply kept_char_iff. }
  split; [exact Hstrip|].
  intros Hq; rewrite Hstrip, sanitize_response_filter.
  apply trimmed_filter; try apply strip_edges.
  intros c Hc Hin; apply kept_char_iff; split.
  - intros ->; discriminate.
  - intros ->; now apply strip_In in Hin.
Qed.

Lemma sanitize_response_again_witness :
  ~ In DQUOTE (lit "  a b  ") /\
  sanitize_response (sanitize_response (lit "  a b  ")) = lit "a b".
Proof.
  assert (Hq : ~ In DQUOTE (lit "  a b  ")).
  { intros H; repeat (destruct H as [H|H]; [discriminate|]); exact H. }
  split; [exact Hq|].
  rewrite (proj2 (sanitize_response_again (lit "  a b  ")) Hq).
  reflexivity.
Defined.

Example sanitize_response_uncovers_space :
  sanitize_response (DQUOTE :: lit " a") = lit " a" /\
  sanitize_response (sanitize_response (DQUOTE :: lit " a")) = lit "a".
Proof. split; reflexivity. Qed.

(** ** [page_search_query_to_page] *)

(** X3.  [page_search_query_to_page] returns a page exactly when the
    search has a first result and this result, or else the first
    option of its disambiguation, is fetched as a page; nothing is
    printed then.  Later results and later options are never looked
    at, and a second disambiguation is not followed.  It exits, with
    status 1 and one printed line, exactly when the search has no
    result. *)
Theorem page_search_query_to_page_result (w : World) (query : str) :
  (forall out p,
     page_search_query_to_page w query = (out, Returned p) <->
     out = [] /\
     exists first rest,
       wikipedia_search w query = Some (first :: rest) /\
       (wikipedia_page w first = PageFound p \/
        exists option0 others,
          wikipedia_page w first = PageAmbiguous (option0 :: others) /\
          wikipedia_page w option0 = PageFound p)) /\
  (forall out code,
     page_search_query_to_page w query = (out, Exited code) <->
     wikipedia_search w query = Some [] /\
     out = [lit "No Wikipedia pages found to answer the question"] /\
     code = 1).
Proof.
  unfold page_search_query_to_page, ret, raise; split; intros out r.
  - destruct (wikipedia_search w query) as [[|first rest]|].
    + cbn; split; [discriminate|]. intros (_ & f & r' & H & _); discriminate.
    + destruct (wikipedia_page w first) as [p1|[|o os]|] eqn:E1.
      * cbn; split.
        -- intros [= <- <-]; split; [reflexivity|].
           exists first, rest; split; [reflexivity | now left].
        -- intros (-> & f & r' & [= <- <-] & [H|(o & os & H & _)]);
             congruence.
      * cbn; split; [discriminate|].
        intros (_ & f & r' & [= <- <-] & [H|(o & os & H & _)]); congruence.
      * destruct (wikipedia_page w o) as [p2|opts|] eqn:E2; cbn; split;
          try discriminate.
        -- intros [= <- <-]; split; [reflexivity|].
           exists first, rest; split; [reflexivity|].
           right; exists o, os; now split.
        -- intros (-> & f & r' & [= <- <-] & [H|(o' & os' & H & H')]);
             congruence.
        -- intros (_ & f & r' & [= <- <-] & [H|(o' & os' & H & H')]);
             congruence.
        -- intros (_ & f & r' & [= <- <-] & [H|(o' & os' & H & H')]);
             congruence.
      * cbn; split; [discriminate|].
        intros (_ & f & r' & [= <- <-] & [H|(o & os & H & _)]); congruence.
    + cbn; split; [discriminate|]. intros (_ & f & r' & H & _); discriminate.
  - destruct (wikipedia_search w query) as [[|first rest]|].
    + cbn; split.
      * now intros [= <- <-].
      * now intros (_ & -> & ->).
    + split; [|intros (H & _); discriminate].
      destruct (wikipedia_page w first) as [p1|[|o os]|]; cbn;
        try discriminate.
      destruct (wikipedia_page w o); cbn; discriminate.
    + cbn; split; [discriminate | intros (H & _); discriminate].
Qed.

Lemma page_search_query_to_page_result_witness :
  page_search_query_to_page
    (mkWorld (fun _ => None)
             (fun _ => Some [lit "Mercury"; lit "Venus"])
             (fun t => if Py.starts_with (lit "M") t
                       then PageAmbiguous [lit "Planet"; lit "Element"]
                       else PageFound (mkPage t [] [] []))
             Re.finditer
             [])
    (lit "mercury")
  = ([], Returned (mkPage (lit "Planet") [] [] [])).
Proof.
  apply page_search_query_to_page_result; split; [reflexivity|].
  exists (lit "Mercury"), [lit "Venus"]; split; [reflexivity|].
  right; exists (lit "Planet"), [lit "Element"]; split; reflexivity.
Defined.

(** ** More on [generate_context] *)

Lemma collect_contexts_full page matches acc :
  length acc = 3%nat -> collect_contexts page matches acc = acc.
Proof.
  intros H; destruct matches; cbn [collect_contexts]; [reflexivity|].
  now rewrite H.
Qed.

Lemma contains_empty s : Py.contains [] s = true.
Proof. now destruct s. Qed.

Lemma context_window_start body : context_window body 0 = [].
Proof.
  unfold context_window; change (0 >? CONTEXT_HALF_SIZE) with false.
  cbv iota; now rewrite slice_from_0 by lia.
Qed.

(** X4.  A match at offset 0 never gives an excerpt: its window is
    empty, and the empty string is found in every summary.  The loop
    goes on as if the match were not there, so a term that is matched
    only at the very start of the body leaves the summary alone. *)
Theorem match_at_start_skipped (page : Page) (matches : list Z) :
  (forall acc,
     collect_contexts page (0 :: matches) acc
     = collect_contexts page matches acc) /\
  context_of_matches page (0 :: matches) = context_of_matches page matches /\
  context_of_matches page [0] = firstn 4000 (Py.strip (summary page)).
Proof.
  assert (Hskip : forall ms acc,
             collect_contexts page (0 :: ms) acc
             = collect_contexts page ms acc).
  { intros ms acc; cbn [collect_contexts].
    rewrite context_window_start, contains_empty.
    destruct (Nat.eqb_spec (length acc) 3) as [E|_]; [|reflexivity].
    now rewrite collect_contexts_full. }
  split; [apply Hskip|]; split.
  - unfold context_of_matches; now rewrite Hskip.
  - unfold context_of_matches, CONTEXT_CHAR_LIMIT; rewrite Hskip.
    cbn [collect_contexts Py.join]; now rewrite slice_from_0 by lia.
Qed.

Lemma slice_substring s a b :
  exists pre rest, s = pre ++ Py.slice s a b ++ rest.
Proof.
  unfold Py.slice.
  set (k := Z.to_nat (Py.adjust (Py.len s) a)).
  set (n := Z.to_nat (Py.adjust (Py.len s) b - Py.adjust (Py.len s) a)).
  exists (firstn k s), (skipn n (skipn k s)).
  now rewrite !firstn_skipn.
Qed.

Lemma context_window_length body m :
  0 <= m -> Py.len (context_window body m) <= 600.
Proof.
  intros Hm; unfold context_window, CONTEXT_HALF_SIZE.
  destruct (Z.gtb_spec m 300).
  - etransitivity; [apply slice_len_le; lia | lia].
  - etransitivity; [apply slice_len_le; lia | lia].
Qed.

(** The offsets module [Re] gives are never negative. *)
Lemma finditer_offsets_nonneg term body ms :
  Re.finditer term body = Some ms -> Forall (fun m => 0 <= m) ms.
Proof.
  unfold Re.finditer; destruct (Re.parse term) as [p|]; [|discriminate].
  intros [= <-]; apply Forall_forall; intros m Hin.
  apply scan_sound in Hin as (j & -> & _); lia.
Qed.

Lemma In_firstn {A : Type} (x : A) n (l : list A) :
  In x (firstn n l) -> In x l.
Proof.
  intros H; rewrite <- (firstn_skipn n l); apply in_or_app; now left.
Qed.

(** X5.  Every excerpt [generate_context] accepts is a piece of the
    page body, has at most 600 characters, and is trimmed: trimming it
    again changes nothing.  This holds for every search term: all that
    is asked of the offsets is that none is negative, as is the case
    of the offsets the library reports. *)
Theorem accepted_excerpts_from_body (page : Page) (matches : list Z) :
  Forall (fun m => 0 <= m) matches ->
  Forall (fun excerpt =>
            (exists pre rest, content page = pre ++ excerpt ++ rest) /\
            Py.len excerpt <= 600 /\
            Py.strip excerpt = excerpt)
         (collect_contexts page matches []).
Proof.
  intros Hms; rewrite Forall_forall in Hms.
  rewrite collect_contexts_first_three; apply Forall_forall.
  intros e He; apply In_firstn in He.
  unfold accepted_windows in He.
  apply in_map_iff in He as (w & <- & Hw).
  apply filter_In in Hw as [Hw _].
  apply in_map_iff in Hw as (m & <- & Hm).
  repeat split.
  - unfold context_window.
    destruct (m >? CONTEXT_HALF_SIZE);
      match goal with
      | |- context [Py.strip (Py.slice ?s ?a ?b)] =>
        destruct (slice_substring s a b) as (pre & rest & Hs);
          destruct (strip_split (Py.slice s a b)) as (x & y & Hw)
      end;
      exists (pre ++ x), (y ++ rest);
      rewrite Hs at 1; rewrite Hw at 1; now rewrite <- !app_assoc.
  - pose proof (context_window_length (content page) m (Hms m Hm)).
    pose proof (strip_length (context_window (content page) m)).
    unfold Py.len in *; lia.
  - apply strip_idem.
Qed.

Lemma accepted_excerpts_from_body_witness :
  Re.finditer (lit "c") (lit "ab c d") = Some [3] /\
  Forall (fun m => 0 <= m) [3] /\
  Forall (fun excerpt =>
            (exists pre rest, lit "ab c d" = pre ++ excerpt ++ rest) /\
            Py.len excerpt <= 600 /\
            Py.strip excerpt = excerpt)
         (collect_contexts (mkPage [] (lit "ab c d") (lit "s") []) [3] []).
Proof.
  assert (H : Forall (fun m => 0 <= m) [3])
    by exact (finditer_offsets_nonneg (lit "c") (lit "ab c d") [3] eq_refl).
  split; [reflexivity|]; split; [exact H|].
  exact (accepted_excerpts_from_body
           (mkPage [] (lit "ab c d") (lit "s") []) [3] H).
Defined.

(** A negative offset, which the library never reports, would be read
    from the end of the body and could give a longer window. *)
Example negative_offset_window :
  Py.len (context_window (repeat "a"%char 700) (-1)) = 698.
Proof. vm_compute; reflexivity. Qed.

Lemma join_cons sep x l :
  exists tail, Py.join sep (x :: l) = x ++ tail.
Proof.
  destruct l as [|y l]; cbn [Py.join].
  - exists []; now rewrite app_nil_r.
  - now eexists.
Qed.

(** X6.  The context always starts with the trimmed summary: it is
    the first 4000 characters of the trimmed summary followed by the
    excerpts.  A trimmed summary of 4000 characters or more leaves no
    room for any excerpt; a shorter one is in the context whole. *)
Theorem context_starts_with_summary (page : Page) (matches : list Z) :
  (exists tail,
     context_of_matches page matches
     = firstn 4000 (Py.strip (summary page) ++ tail)) /\
  (4000 <= Py.len (Py.strip (summary page)) ->
   context_of_matches page matches
   = firstn 4000 (Py.strip (summary page))) /\
  (Py.len (Py.strip (summary page)) <= 4000 ->
   exists tail,
     context_of_matches page matches = Py.strip (summary page) ++ tail).
Proof.
  unfold context_of_matches, CONTEXT_CHAR_LIMIT, Py.len.
  destruct (join_cons CONTEXT_DIVIDER (Py.strip (summary page))
                      (collect_contexts page matches [])) as [tail ->].
  rewrite slice_from_0 by lia.
  change (Z.to_nat 4000) with 4000%nat.
  split; [now exists tail|]; split; intros H; rewrite firstn_app.
  - replace (4000 - length (Py.strip (summary page)))%nat with 0%nat by lia.
    now rewrite firstn_O, app_nil_r.
  - rewrite firstn_all2 by lia; now eexists.
Qed.

Lemma context_starts_with_summary_witness :
  Py.len (Py.strip (lit " s ")) <= 4000 /\
  exists tail,
    context_of_matches (mkPage [] (lit "abc") (lit " s ") []) [1]
    = Py.strip (lit " s ") ++ tail.
Proof.
  split; [vm_compute; discriminate|].
  apply (context_starts_with_summary
           (mkPage [] (lit "abc") (lit " s ") []) [1]).
  vm_compute; discriminate.
Defined.

Lemma firstn_of_repeat {A : Type} (x : A) n m :
  firstn n (repeat x m) = repeat x (Nat.min n m).
Proof.
  revert m; induction n as [|n IH]; intros [|m]; simpl; auto.
  now rewrite IH.
Qed.

(** X7.  Excerpts are not compared with one another.  When the body
    ends before twice the offset of each match, all at most 300, and
    is not found in the summary, every window is the whole body: the
    accepted excerpts are the trimmed body, once per match and at most
    three times. *)
Theorem short_body_repeated (page : Page) (matches : list Z) :
  Forall (fun m => 0 <= m <= 300 /\ Py.len (content page) <= m + m)
         matches ->
  Py.contains (content page) (summary page) = false ->
  collect_contexts page matches []
  = repeat (Py.strip (content page)) (Nat.min 3 (length matches)).
Proof.
  intros Hms Hnot; rewrite collect_contexts_first_three.
  assert (Hall : accepted_windows page matches
                 = repeat (Py.strip (content page)) (length matches)).
  { unfold accepted_windows.
    induction Hms as [|m ms [Hm Hlen] _ IH]; [reflexivity|].
    cbn [map length repeat].
    assert (Hw : context_window (content page) m = content page).
    { unfold context_window, CONTEXT_HALF_SIZE.
      destruct (Z.gtb_spec m 300); [lia|].
      rewrite slice_from_0 by lia.
      apply firstn_all2; unfold Py.len in Hlen; lia. }
    rewrite Hw; cbn [filter]; rewrite Hnot; cbn [negb map].
    now rewrite IH. }
  rewrite Hall; apply firstn_of_repeat.
Qed.

Lemma short_body_repeated_witness :
  Re.finditer (lit "b") (lit "aaaaaaa b b b") = Some [8; 10; 12] /\
  collect_contexts (mkPage [] (lit "aaaaaaa b b b") (lit "s") [])
                   [8; 10; 12] []
  = [lit "aaaaaaa b b b"; lit "aaaaaaa b b b"; lit "aaaaaaa b b b"].
Proof.
  split; [reflexivity|].
  rewrite (short_body_repeated
             (mkPage [] (lit "aaaaaaa b b b") (lit "s") []) [8; 10; 12]).
  - reflexivity.
  - repeat constructor; cbn; try lia; discriminate.
  - reflexivity.
Defined.

(** ** More on [generate_context_highlighted] *)

Lemma newline_to_space_free s : ~ In NL (map newline_to_space s).
Proof.
  intros H; apply in_map_iff in H as (c & Hc & _).
  unfold newline_to_space in Hc.
  destruct (Ascii.eqb_spec c NL); [discriminate | congruence].
Qed.

Lemma newline_to_space_id s :
  ~ In NL s -> map newline_to_space s = s.
Proof.
  induction s as [|c s IH]; [reflexivity|]; intros H; cbn [map].
  rewrite IH by (intros Hin; apply H; now right).
  unfold newline_to_space; destruct (Ascii.eqb_spec c NL); [|reflexivity].
  exfalso; apply H; now left.
Qed.

Lemma highlighted_image context excerpt :
  exists s, generate_context_highlighted context excerpt
            = map newline_to_space s.
Proof.
  unfold generate_context_highlighted.
  destruct excerpt as [e|]; [|eexists; apply replace_newlines].
  destruct (Py.contains e context); cbn [negb];
    eexists; apply replace_newlines.
Qed.

Lemma contains_length e c :
  Py.contains e c = true -> (length e <= length c)%nat.
Proof.
  intros H; apply contains_iff in H as (pre & rest & ->).
  rewrite !length_app; lia.
Qed.

(** The result for an excerpt that is found: its length, and the
    marked excerpt in it. *)
Lemma highlighted_found c e :
  Py.contains e c = true ->
  Py.len (generate_context_highlighted c (Some e)) <= Py.len e + 400 /\
  (e <> [] -> (length e <= 193)%nat \/ ~ In ESC e ->
   exists x y,
     generate_context_highlighted c (Some e)
     = x ++ bold (map newline_to_space e) ++ y).
Proof.
  intros Hin; destruct e as [|c0 e0].
  { split; [|congruence].
    rewrite highlighted_empty; unfold Py.len.
    rewrite length_map, length_firstn; cbn [length]; lia. }
  set (e := c0 :: e0) in *.
  assert (He : e <> []) by discriminate.
  rewrite (highlighted_nonempty _ _ He Hin); cbv zeta.
  destruct (marked_shape c e He Hin)
    as (pre & rest & m & _ & _ & Hmarked & Hm & _ & _ & Hup & Hlow & Hesc).
  rewrite Hm, Hmarked; split.
  - unfold Py.len at 1; rewrite length_map.
    fold (Py.len (Py.slice (pre ++ bold e ++ Py.replace rest e (bold e))
                           (Z.max 0 (Z.of_nat m - 200))
                           (Z.of_nat m + Py.len e + 200))).
    etransitivity; [apply slice_len_le; unfold Py.len; lia|].
    unfold Py.len; lia.
  - intros _ Hcond.
    assert (Hm_low : (length pre <= m + 192)%nat).
    { destruct Hcond as [Hshort|Hfree]; [lia|].
      specialize (Hesc Hfree); lia. }
    destruct (slice_covers pre (bold e) (Py.replace rest e (bold e))
                (Z.max 0 (Z.of_nat m - 200))
                (Z.of_nat m + Py.len e + 200)) as (x & y & Hcut).
    + unfold Py.len; lia.
    + unfold Py.len; rewrite bold_length; lia.
    + rewrite Hcut, !map_app, bold_without_newlines.
      now exists (map newline_to_space x), (map newline_to_space y).
Qed.

Lemma highlighted_length context excerpt :
  Py.len (generate_context_highlighted context excerpt)
  <= Py.len context + 400.
Proof.
  destruct excerpt as [e|].
  - destruct (Py.contains e context) eqn:E.
    + destruct (highlighted_found context e E) as [Hlen _].
      apply contains_length in E; unfold Py.len in *; lia.
    + unfold generate_context_highlighted; rewrite E; cbn [negb].
      rewrite replace_newlines; unfold Py.len; rewrite length_map; lia.
  - unfold generate_context_highlighted.
    rewrite replace_newlines; unfold Py.len; rewrite length_map; lia.
Qed.

(** X8.  Whatever the context and the excerpt, given or not, found or
    not, the string [generate_context_highlighted] returns holds no
    newline: it is one line. *)
Theorem highlighted_is_one_line (context : str) (excerpt : option str) :
  ~ In NL (generate_context_highlighted context excerpt).
Proof.
  destruct (highlighted_image context excerpt) as [s ->].
  apply newline_to_space_free.
Qed.

(** X9.  Whatever the context and the excerpt, the string
    [generate_context_highlighted] returns is at most 400 characters
    longer than the context: the two bold sequences never make the
    result outgrow that bound, however often the excerpt occurs. *)
Theorem highlighted_at_most_400_longer (context : str)
        (excerpt : option str) :
  Py.len (generate_context_highlighted context excerpt)
  <= Py.len context + 400.
Proof. apply highlighted_length. Qed.

(** X10.  [generate_excerpt] followed by [generate_context_highlighted]:
    when the sanitized reply is not in the context the context comes
    back with its newlines as spaces; an excerpt that is returned
    holds no newline and no double quote, so that, when it is not
    empty and is at most 193 characters long or free of the escape
    character, it stands in the result letter for letter between the
    bold sequences. *)
Theorem reply_highlighted (context reply : str) :
  (generate_excerpt context reply = None ->
   generate_context_highlighted context (generate_excerpt context reply)
   = map newline_to_space context) /\
  (forall e,
     generate_excerpt context reply = Some e ->
     ~ In NL e /\ ~ In DQUOTE e /\
     (e <> [] -> (length e <= 193)%nat \/ ~ In ESC e ->
      exists x y,
        generate_context_highlighted context
                                     (generate_excerpt context reply)
        = x ++ bold e ++ y)).
Proof.
  split.
  - intros ->; apply replace_newlines.
  - intros e He; rewrite He.
    unfold generate_excerpt, gen_completion in He.
    destruct (Py.contains (sanitize_response reply) context) eqn:E;
      [|discriminate].
    injection He as <-.
    assert (Hnl : ~ In NL (sanitize_response reply))
      by (intros H; now apply sanitize_response_chars in H as (_ & H & _)).
    repeat split; [exact Hnl | |].
    + intros H; now apply sanitize_response_chars in H as (_ & _ & H).
    + intros Hne Hcond.
      destruct (highlighted_found context _ E) as [_ Hhas].
      destruct (Hhas Hne Hcond) as (x & y & Hxy).
      rewrite newline_to_space_id in Hxy by exact Hnl.
      now exists x, y.
Qed.

Lemma reply_highlighted_witness :
  generate_excerpt (lit "one two three") (DQUOTE :: lit "two" ++ [DQUOTE; NL])
  = Some (lit "two") /\
  lit "two" <> [] /\
  ((length (lit "two") <= 193)%nat \/ ~ In ESC (lit "two")) /\
  exists x y,
    generate_context_highlighted
      (lit "one two three")
      (generate_excerpt (lit "one two three")
                        (DQUOTE :: lit "two" ++ [DQUOTE; NL]))
    = x ++ bold (lit "two") ++ y.
Proof.
  assert (He : generate_excerpt (lit "one two three")
                                (DQUOTE :: lit "two" ++ [DQUOTE; NL])
               = Some (lit "two")) by reflexivity.
  assert (Hne : lit "two" <> []) by discriminate.
  assert (Hshort : (length (lit "two") <= 193)%nat \/ ~ In ESC (lit "two"))
    by (left; simpl; lia).
  split; [exact He|]; split; [exact Hne|]; split; [exact Hshort|].
  destruct (proj2 (reply_highlighted _ _) _ He) as (_ & _ & Hhas).
  exact (Hhas Hne Hshort).
Defined.

(** ** [answer_question] *)

Section Orchestration.

Variable w : World.

Lemma bind_returned {A B : Type} (m : run A) (f : A -> run B) out b :
  bind m f = (out, Returned b) ->
  exists out1 a out2,
    m = (out1, Returned a) /\ f a = (out2, Returned b) /\
    out = out1 ++ out2.
Proof.
  destruct m as [out1 [a|code|e]]; cbn [bind]; try discriminate.
  destruct (f a) as [out2 r] eqn:E; intros [= <- ->].
  now exists out1, a, out2.
Qed.

Lemma bind_exited {A B : Type} (m : run A) (f : A -> run B) out code :
  bind m f = (out, Exited code) ->
  m = (out, Exited code) \/
  exists out1 a out2,
    m = (out1, Returned a) /\ f a = (out2, Exited code) /\
    out = out1 ++ out2.
Proof.
  destruct m as [out1 [a|code1|e]]; cbn [bind]; try discriminate.
  - destruct (f a) as [out2 r] eqn:E; intros [= <- ->].
    right; now exists out1, a, out2.
  - intros [= <- <-]; now left.
Qed.

Lemma request_completion_returned prompt out s :
  request_completion w prompt = (out, Returned s) ->
  out = [] /\
  exists reply,
    completion_text w prompt = Some reply /\ s = sanitize_response reply.
Proof.
  unfold request_completion, ret, raise, gen_completion.
  destruct (completion_text w prompt) as [reply|]; [|discriminate].
  intros [= <- <-]; split; [reflexivity | now exists reply].
Qed.

Lemma request_completion_no_exit prompt out code :
  request_completion w prompt <> (out, Exited code).
Proof.
  unfold request_completion, ret, raise.
  destruct (completion_text w prompt); discriminate.
Qed.

Lemma request_excerpt_returned context question out excerpt :
  request_excerpt w context question = (out, Returned excerpt) ->
  out = [] /\
  exists reply, excerpt = generate_excerpt context reply.
Proof.
  unfold request_excerpt, ret, raise.
  destruct (completion_text w _) as [reply|]; [|discriminate].
  intros [= <- <-]; split; [reflexivity | now exists reply].
Qed.

Lemma request_excerpt_no_exit context question out code :
  request_excerpt w context question <> (out, Exited code).
Proof.
  unfold request_excerpt, ret, raise.
  destruct (completion_text w _); discriminate.
Qed.

Lemma page_search_returned query out p :
  page_search_query_to_page w query = (out, Returned p) -> out = [].
Proof.
  unfold page_search_query_to_page, ret, raise.
  destruct (wikipedia_search w query) as [[|first rest]|];
    cbn; try discriminate.
  destruct (wikipedia_page w first) as [p1|[|o os]|]; try discriminate.
  - now intros [= <- _].
  - destruct (wikipedia_page w o); try discriminate.
    now intros [= <- _].
Qed.

Lemma page_search_exited query out code :
  page_search_query_to_page w query = (out, Exited code) ->
  wikipedia_search w query = Some [] /\
  out = [lit "No Wikipedia pages found to answer the question"] /\
  code = 1.
Proof.
  unfold page_search_query_to_page, ret, raise.
  destruct (wikipedia_search w query) as [[|first rest]|];
    cbn; try discriminate.
  - now intros [= <- <-].
  - destruct (wikipedia_page w first) as [p1|[|o os]|]; try discriminate.
    destruct (wikipedia_page w o); discriminate.
Qed.

Lemma context_capped finditer page term context :
  generate_context finditer page term = Some context ->
  Py.len context <= 4000.
Proof.
  unfold generate_context.
  destruct (finditer term (content page)) as [ms|]; [|discriminate].
  intros [= <-]; unfold context_of_matches, CONTEXT_CHAR_LIMIT.
  rewrite slice_from_0 by lia.
  unfold Py.len; rewrite length_firstn; lia.
Qed.

End Orchestration.

(** X11.  When [answer_question] runs to its end, whatever the search
    term the service gave, it has printed two things: the line that
    names the page the question was resolved to, and the summary
    block.  In the block the answer holds no newline and no double
    quote, and the highlighted context is one line of at most 4400
    characters, made from the context [generate_context] returned for
    that page, of at most 4000. *)
Theorem answer_question_prints (w : World) (question : str)
        (out : list str) :
  answer_question w question = (out, Returned tt) ->
  exists reply page term answer context excerpt,
    completion_text w (page_search_prompt question) = Some reply /\
    page_search_query_to_page w (sanitize_response reply)
    = ([], Returned page) /\
    generate_context (re_finditer w) page term = Some context /\
    out = [lit "Pulling up page: " ++ title page;
           summary_pretty answer
             (generate_context_highlighted context excerpt) (url page)] /\
    ~ In NL answer /\ ~ In DQUOTE answer /\
    Py.len context <= 4000 /\
    ~ In NL (generate_context_highlighted context excerpt) /\
    Py.len (generate_context_highlighted context excerpt) <= 4400.
Proof.
  unfold answer_question; intros H.
  apply bind_returned in H as (o1 & query & o1' & Hq & H & ->).
  apply request_completion_returned in Hq as [-> (reply0 & Hreply & ->)].
  apply bind_returned in H as (o2 & page & o2' & Hp & H & ->).
  pose proof (page_search_returned _ _ _ _ Hp) as ->.
  apply bind_returned in H as (o3 & [] & o3' & Hpr & H & ->).
  injection Hpr as <-.
  apply bind_returned in H as (o4 & term & o4' & Ht & H & ->).
  apply request_completion_returned in Ht as [-> _].
  apply bind_returned in H as (o5 & context & o5' & Hc & H & ->).
  destruct (generate_context _ page term) as [c|] eqn:Ec; [|discriminate].
  injection Hc as <- <-.
  apply bind_returned in H as (o6 & answer & o6' & Ha & H & ->).
  apply request_completion_returned in Ha as [-> (reply & _ & ->)].
  apply bind_returned in H as (o7 & excerpt & o7' & He & H & ->).
  apply request_excerpt_returned in He as [-> _].
  injection H as <-.
  exists reply0, page, term, (sanitize_response reply), c, excerpt.
  pose proof (context_capped _ _ _ _ Ec) as Hlen.
  pose proof (highlighted_length c excerpt).
  split; [exact Hreply|]; split; [exact Hp|]; split; [exact Ec|].
  repeat split; auto.
  - intros Hin; now apply sanitize_response_chars in Hin as (_ & Hin & _).
  - intros Hin; now apply sanitize_response_chars in Hin as (_ & _ & Hin).
  - destruct (highlighted_image c excerpt) as [s ->].
    apply newline_to_space_free.
  - lia.
Qed.

Lemma answer_question_prints_witness :
  exists out,
    answer_question
      (mkWorld (fun _ => Some (lit " moons?"))
               (fun _ => Some [lit "Moon"])
               (fun t => PageFound
                           (mkPage t (lit "The moon orbits. A moon is a rock.")
                                   (lit "The moon orbits.") (lit "http://m")))
               (fun _ _ => Some [4; 19])
               (lit "today"))
      (lit "What is a moon?")
    = (out, Returned tt) /\
    exists page answer context excerpt,
      out = [lit "Pulling up page: " ++ title page;
             summary_pretty answer
               (generate_context_highlighted context excerpt) (url page)] /\
      ~ In NL answer /\ ~ In DQUOTE answer /\
      Py.len context <= 4000 /\
      ~ In NL (generate_context_highlighted context excerpt) /\
      Py.len (generate_context_highlighted context excerpt) <= 4400.
Proof.
  eexists; split; [reflexivity|].
  destruct (answer_question_prints
           (mkWorld (fun _ => Some (lit " moons?"))
               (fun _ => Some [lit "Moon"])
               (fun t => PageFound
                           (mkPage t (lit "The moon orbits. A moon is a rock.")
                                   (lit "The moon orbits.") (lit "http://m")))
               (fun _ _ => Some [4; 19])
               (lit "today"))
           (lit "What is a moon?") _ eq_refl)
    as (reply & page & term & answer & context & excerpt & _ & _ & _ & H).
  now exists page, answer, context, excerpt.
Defined.

(** X12.  [answer_question] ends in [sys.exit] only with status 1,
    only after the first completion came back and the search for its
    sanitized text gave no result, and with the one line of
    [page_search_query_to_page] printed; and in that situation it
    always does.  No later step exits. *)
Theorem answer_question_exit (w : World) (question : str) :
  (forall out code,
     answer_question w question = (out, Exited code) ->
     code = 1 /\
     out = [lit "No Wikipedia pages found to answer the question"] /\
     exists reply,
       completion_text w (page_search_prompt question) = Some reply /\
       wikipedia_search w (sanitize_response reply) = Some []) /\
  (forall reply,
     completion_text w (page_search_prompt question) = Some reply ->
     wikipedia_search w (sanitize_response reply) = Some [] ->
     answer_question w question
     = ([lit "No Wikipedia pages found to answer the question"], Exited 1)).
Proof.
  split.
  - intros out code H; unfold answer_question in H.
    apply bind_exited in H as [H|(o1 & query & o1' & Hq & H & ->)];
      [now apply request_completion_no_exit in H|].
    apply request_completion_returned in Hq as [-> (reply & Hr & ->)].
    apply bind_exited in H as [H|(o2 & page & o2' & _ & H & ->)].
    { apply page_search_exited in H as (Hs & -> & ->).
      repeat split; now exists reply. }
    exfalso.
    apply bind_exited in H as [H|(o3 & u & o3' & _ & H & ->)];
      [discriminate|].
    apply bind_exited in H as [H|(o4 & term & o4' & _ & H & ->)];
      [now apply request_completion_no_exit in H|].
    apply bind_exited in H as [H|(o5 & context & o5' & _ & H & ->)];
      [destruct (generate_context _ page term); discriminate|].
    apply bind_exited in H as [H|(o6 & answer & o6' & _ & H & ->)];
      [now apply request_completion_no_exit in H|].
    apply bind_exited in H as [H|(o7 & excerpt & o7' & _ & H & ->)];
      [now apply request_excerpt_no_exit in H|].
    discriminate.
  - intros reply Hr Hs.
    unfold answer_question, question_to_page_search_query,
      request_completion, page_search_query_to_page, gen_completion.
    rewrite Hr; cbn [bind ret]; rewrite Hs; reflexivity.
Qed.

Lemma answer_question_exit_witness :
  answer_question
    (mkWorld (fun _ => Some (lit " nothing "))
             (fun _ => Some [])
             (fun _ => PageFailed)
             Re.finditer
             (lit "today"))
    (lit "What?")
  = ([lit "No Wikipedia pages found to answer the question"], Exited 1).
Proof.
  apply (proj2 (answer_question_exit
                  (mkWorld (fun _ => Some (lit " nothing "))
                           (fun _ => Some [])
                           (fun _ => PageFailed)
                           Re.finditer
                           (lit "today"))
                  (lit "What?"))
               (lit " nothing ")); reflexivity.
Defined.

Section Failures.

Variable w : World.

Lemma bind_raised {A B : Type} (m : run A) (f : A -> run B) out e :
  bind m f = (out, Raised e) ->
  m = (out, Raised e) \/
  exists out1 a out2,
    m = (out1, Returned a) /\ f a = (out2, Raised e) /\
    out = out1 ++ out2.
Proof.
  destruct m as [out1 [a|code1|e1]]; cbn [bind]; try discriminate.
  - destruct (f a) as [out2 r] eqn:E; intros [= <- ->].
    right; now exists out1, a, out2.
  - intros [= <- <-]; now left.
Qed.

Lemma request_completion_silent prompt out (r : outcome str) :
  request_completion w prompt = (out, r) -> out = [].
Proof.
  unfold request_completion, ret, raise.
  destruct (completion_text w prompt); now intros [= <- _].
Qed.

Lemma request_excerpt_silent context question out
      (r : outcome (option str)) :
  request_excerpt w context question = (out, r) -> out = [].
Proof.
  unfold request_excerpt, ret, raise.
  destruct (completion_text w _); now intros [= <- _].
Qed.

Lemma page_search_raised query out e :
  page_search_query_to_page w query = (out, Raised e) -> out = [].
Proof.
  unfold page_search_query_to_page, ret, raise.
  destruct (wikipedia_search w query) as [[|first rest]|];
    cbn; try discriminate; try (now intros [= <- _]).
  destruct (wikipedia_page w first) as [p1|[|o os]|];
    try discriminate; try (now intros [= <- _]).
  destruct (wikipedia_page w o); try discriminate; now intros [= <- _].
Qed.

End Failures.

(** X13.  When [answer_question] ends with an exception that nothing
    catches, a failed request or page fetch for instance, at most the
    line that names the page has been printed: the summary block is
    printed whole or not at all, also when the answer had already come
    back and only the excerpt request failed. *)
Theorem answer_question_no_partial_summary (w : World) (question : str) :
  forall out e,
    answer_question w question = (out, Raised e) ->
    out = [] \/
    exists page, out = [lit "Pulling up page: " ++ title page].
Proof.
  intros out e H; unfold answer_question in H.
  apply bind_raised in H as [H|(o1 & query & o1' & Hq & H & ->)];
    [left; now apply request_completion_silent in H|].
  apply request_completion_silent in Hq as ->.
  apply bind_raised in H as [H|(o2 & page & o2' & Hp & H & ->)];
    [left; now apply page_search_raised in H as ->|].
  apply page_search_returned in Hp as ->.
  right; exists page.
  apply bind_raised in H as [H|(o3 & u & o3' & Hpr & H & ->)];
    [discriminate|].
  injection Hpr as <- _.
  apply bind_raised in H as [H|(o4 & term & o4' & Ht & H & ->)];
    [now apply request_completion_silent in H as ->|].
  apply request_completion_silent in Ht as ->.
  apply bind_raised in H as [H|(o5 & context & o5' & Hc & H & ->)].
  { destruct (generate_context _ page term); now injection H as <- _. }
  assert (o5 = []) as ->
    by (destruct (generate_context _ page term); now injection Hc as <- _).
  apply bind_raised in H as [H|(o6 & answer & o6' & Ha & H & ->)];
    [now apply request_completion_silent in H as ->|].
  apply request_completion_silent in Ha as ->.
  apply bind_raised in H as [H|(o7 & excerpt & o7' & He & H & ->)];
    [now apply request_excerpt_silent in H as ->|].
  discriminate.
Qed.

Lemma answer_question_no_partial_summary_witness :
  answer_question
    (mkWorld (fun prompt =>
                if Py.contains (lit "Excerpt:") prompt
                then None else Some (lit "moon"))
             (fun _ => Some [lit "Moon"])
             (fun t => PageFound (mkPage t (lit "A moon.") (lit "S") []))
             Re.finditer
             (lit "today"))
    (lit "What?")
  = ([lit "Pulling up page: Moon"], Raised RequestFailed) /\
  ([lit "Pulling up page: Moon"] = []
   \/ exists page,
       [lit "Pulling up page: Moon"] = [lit "Pulling up page: " ++ title page]).
Proof.
  split; [reflexivity|].
  apply (answer_question_no_partial_summary
           (mkWorld (fun prompt =>
                if Py.contains (lit "Excerpt:") prompt
                then None else Some (lit "moon"))
             (fun _ => Some [lit "Moon"])
             (fun t => PageFound (mkPage t (lit "A moon.") (lit "S") []))
             Re.finditer
             (lit "today"))
           (lit "What?") _ RequestFailed).
  reflexivity.
Defined.

(** ** Empty body, empty search term *)

Lemma context_of_matches_start page ms :
  context_of_matches page (0 :: ms) = context_of_matches page ms.
Proof.
  unfold context_of_matches; do 3 f_equal.
  cbn [collect_contexts]; rewrite context_window_start, contains_empty.
  reflexivity.
Qed.

Lemma context_of_no_match page :
  context_of_matches page [] = firstn 4000 (Py.strip (summary page)).
Proof.
  unfold context_of_matches, CONTEXT_CHAR_LIMIT.
  cbn [collect_contexts Py.join]; now rewrite slice_from_0 by lia.
Qed.

(** X14.  For a page whose body is empty, [generate_context] returns
    the trimmed summary cut to 4000 characters and nothing else,
    whatever the search term: the offsets the library reports lie
    within the body, so every match is at offset 0 and is skipped. *)
Theorem empty_body_gives_summary (page : Page) :
  content page = [] ->
  (forall matches,
     Forall (fun m => 0 <= m <= Py.len (content page)) matches ->
     context_of_matches page matches
     = firstn 4000 (Py.strip (summary page))) /\
  (forall finditer term matches,
     finditer term (content page) = Some matches ->
     Forall (fun m => 0 <= m <= Py.len (content page)) matches ->
     generate_context finditer page term
     = Some (firstn 4000 (Py.strip (summary page)))).
Proof.
  intros Hbody.
  assert (Hall : forall matches,
             Forall (fun m => 0 <= m <= Py.len (content page)) matches ->
             context_of_matches page matches
             = firstn 4000 (Py.strip (summary page))).
  { rewrite Hbody; induction 1 as [|m ms Hm _ IH].
    - apply context_of_no_match.
    - replace m with 0 by (cbn in Hm; lia).
      now rewrite context_of_matches_start. }
  split; [exact Hall|].
  intros finditer term matches Hms Hin.
  unfold generate_context; rewrite Hms; cbn [option_map].
  now rewrite Hall.
Qed.

Lemma empty_body_gives_summary_witness :
  content (mkPage (lit "Moon") [] (lit " The moon. ") []) = [] /\
  Forall (fun m => 0 <= m <= Py.len []) [0] /\
  generate_context (fun _ _ => Some [0])
                   (mkPage (lit "Moon") [] (lit " The moon. ") [])
                   (lit "a*")
  = Some (lit "The moon.").
Proof.
  assert (H : Forall (fun m => 0 <= m <= Py.len []) [0])
    by (repeat constructor; cbn; lia).
  split; [reflexivity|]; split; [exact H|].
  etransitivity;
    [exact (proj2 (empty_body_gives_summary
                     (mkPage (lit "Moon") [] (lit " The moon. ") [])
                     eq_refl)
                  (fun _ _ => Some [0]) (lit "a*") [0] eq_refl H)
    | reflexivity].
Defined.

Lemma scan_empty_pattern s : forall pos,
  Re.scan [] pos 0 s
  = map (fun j => pos + Z.of_nat j) (seq 0 (S (length s))).
Proof.
  induction s as [|c s IH]; intros pos.
  - cbn; now rewrite Z.add_0_r.
  - cbn [Re.scan Re.match_here length Nat.pred].
    rewrite IH.
    change (seq 0 (S (S (length s)))) with (0%nat :: seq 1 (S (length s))).
    rewrite <- seq_shift; cbn [map]; rewrite map_map, Z.add_0_r; f_equal.
    apply map_ext; intros j; lia.
Qed.

Lemma context_window_small body m :
  0 <= m <= 300 -> context_window body m = firstn (Z.to_nat (m + m)) body.
Proof.
  intros Hm; unfold context_window, CONTEXT_HALF_SIZE.
  destruct (Z.gtb_spec m 300); [lia|].
  apply slice_from_0; lia.
Qed.

(** X15.  The empty search term is not refused: it is matched at
    every offset of the body, the end included.  When the body has at
    least three characters and its beginnings of 2, 4 and 6 characters
    are not found in the summary, these three beginnings, trimmed,
    are the excerpts. *)
Theorem empty_term_matches_everywhere (page : Page) :
  (forall finditer,
     as_described finditer ->
     generate_context finditer page []
     = Some (context_of_matches page
               (map Z.of_nat (seq 0 (S (length (content page))))))) /\
  ((3 <= length (content page))%nat ->
   Py.contains (firstn 2 (content page)) (summary page) = false ->
   Py.contains (firstn 4 (content page)) (summary page) = false ->
   Py.contains (firstn 6 (content page)) (summary page) = false ->
   collect_contexts page
     (map Z.of_nat (seq 0 (S (length (content page))))) []
   = [Py.strip (firstn 2 (content page));
      Py.strip (firstn 4 (content page));
      Py.strip (firstn 6 (content page))]).
Proof.
  split.
  - intros finditer Hlib; unfold generate_context.
    rewrite (Hlib [] (content page)
               (map Z.of_nat (seq 0 (S (length (content page))))));
      [reflexivity|].
    unfold Re.finditer; cbn [Re.parse option_map].
    now rewrite scan_empty_pattern.
  - intros Hlen H2 H4 H6.
    destruct (length (content page)) as [|[|[|n]]]; try lia.
    cbn [seq map].
    change (Z.of_nat 0) with 0; change (Z.of_nat 1) with 1.
    change (Z.of_nat 2) with 2; change (Z.of_nat 3) with 3.
    cbn [collect_contexts].
    rewrite context_window_start, contains_empty.
    rewrite !context_window_small by lia.
    change (Z.to_nat (1 + 1)) with 2%nat.
    change (Z.to_nat (2 + 2)) with 4%nat.
    change (Z.to_nat (3 + 3)) with 6%nat.
    cbn [length Nat.eqb]; rewrite H2; cbn [app length Nat.eqb].
    rewrite H4; cbn [app length Nat.eqb]; rewrite H6; cbn [app].
    now apply collect_contexts_full.
Qed.

Lemma empty_term_matches_everywhere_witness :
  (as_described Re.finditer /\
   generate_context Re.finditer
                    (mkPage [] (lit "The moon orbits.") (lit "Moon") []) []
   = Some (lit "Moon [...] Th [...] The [...] The mo")) /\
  (3 <= length (lit "The moon orbits."))%nat /\
  collect_contexts (mkPage [] (lit "The moon orbits.") (lit "Moon") [])
     (map Z.of_nat (seq 0 (S (length (lit "The moon orbits."))))) []
  = [lit "Th"; lit "The"; lit "The mo"].
Proof.
  split; [split|].
  - intros pattern string ms H; exact H.
  - etransitivity;
      [exact (proj1 (empty_term_matches_everywhere
                       (mkPage [] (lit "The moon orbits.") (lit "Moon") []))
                    Re.finditer (fun pattern string ms E => E))
      | reflexivity].
  - split; [simpl; lia|].
    etransitivity;
      [apply (proj2 (empty_term_matches_everywhere
                       (mkPage [] (lit "The moon orbits.") (lit "Moon") [])));
       [simpl; lia | reflexivity | reflexivity | reflexivity]
      | reflexivity].
Defined.

(** ** The layout of the printed block *)

Lemma count_newlines_none s :
  ~ In NL s -> count_occ ascii_dec s NL = 0%nat.
Proof. apply count_occ_not_In. Qed.

(** X16.  When [answer_question] runs to its end it has printed two
    lines, and the summary block has ten newlines more than the URL
    of the page the question was resolved to, whatever the service
    replied and the page holds: the answer and the highlighted context
    each stay on their line.  With a URL free of newlines the block
    has exactly ten. *)
Theorem answer_question_block_layout (w : World) (question : str)
        (out : list str) :
  answer_question w question = (out, Returned tt) ->
  exists reply page line block,
    completion_text w (page_search_prompt question) = Some reply /\
    page_search_query_to_page w (sanitize_response reply)
    = ([], Returned page) /\
    out = [line; block] /\
    count_occ ascii_dec block NL
    = (10 + count_occ ascii_dec (url page) NL)%nat.
Proof.
  unfold answer_question; intros H.
  apply bind_returned in H as (o1 & query & o1' & Hq & H & ->).
  apply request_completion_returned in Hq as [-> (reply0 & Hreply & ->)].
  apply bind_returned in H as (o2 & page & o2' & Hp & H & ->).
  pose proof (page_search_returned _ _ _ _ Hp) as ->.
  apply bind_returned in H as (o3 & [] & o3' & Hpr & H & ->).
  injection Hpr as <-.
  apply bind_returned in H as (o4 & term & o4' & Ht & H & ->).
  apply request_completion_returned in Ht as [-> _].
  apply bind_returned in H as (o5 & context & o5' & Hc & H & ->).
  destruct (generate_context _ page term) as [c|] eqn:Ec; [|discriminate].
  injection Hc as <- <-.
  apply bind_returned in H as (o6 & answer & o6' & Ha & H & ->).
  apply request_completion_returned in Ha as [-> (reply & _ & ->)].
  apply bind_returned in H as (o7 & excerpt & o7' & He & H & ->).
  apply request_excerpt_returned in He as [-> _].
  injection H as <-.
  exists reply0, page; eexists _, _.
  split; [exact Hreply|]; split; [exact Hp|]; split; [reflexivity|].
  assert (Ha : count_occ ascii_dec (sanitize_response reply) NL = 0%nat).
  { apply count_newlines_none; intros Hin.
    now apply sanitize_response_chars in Hin as (_ & Hin & _). }
  assert (Hh : count_occ ascii_dec
                 (generate_context_highlighted c excerpt) NL = 0%nat).
  { apply count_newlines_none.
    destruct (highlighted_image c excerpt) as [s ->].
    apply newline_to_space_free. }
  unfold summary_pretty.
  repeat (rewrite ?count_occ_app, ?count_occ_cons_eq by reflexivity).
  rewrite Ha, Hh.
  change (count_occ ascii_dec (lit "    Answer: ") NL) with 0%nat.
  change (count_occ ascii_dec BOLD_SEQUENCE_START NL) with 0%nat.
  change (count_occ ascii_dec BOLD_SEQUENCE_END NL) with 0%nat.
  change (count_occ ascii_dec (lit "    Context:") NL) with 0%nat.
  change (count_occ ascii_dec (lit "    > [...] ") NL) with 0%nat.
  change (count_occ ascii_dec (lit "  [...]") NL) with 0%nat.
  change (count_occ ascii_dec (lit "    URL: ") NL) with 0%nat.
  change (count_occ ascii_dec (lit "    ") NL) with 0%nat.
  lia.
Qed.

Lemma answer_question_block_layout_witness :
  exists out,
    answer_question
      (mkWorld (fun _ => Some (lit " moons?"))
               (fun _ => Some [lit "Moon"])
               (fun t => PageFound
                           (mkPage t (lit "The moon orbits. A moon is a rock.")
                                   (lit "The moon orbits.") (lit "http://m")))
               (fun _ _ => Some [4; 19])
               (lit "today"))
      (lit "What is a moon?")
    = (out, Returned tt) /\
    exists reply page line block,
      Some (lit " moons?") = Some reply /\
      page_search_query_to_page
        (mkWorld (fun _ => Some (lit " moons?"))
               (fun _ => Some [lit "Moon"])
               (fun t => PageFound
                           (mkPage t (lit "The moon orbits. A moon is a rock.")
                                   (lit "The moon orbits.") (lit "http://m")))
               (fun _ _ => Some [4; 19])
               (lit "today"))
        (sanitize_response reply)
      = ([], Returned page) /\
      out = [line; block] /\
      count_occ ascii_dec block NL
      = (10 + count_occ ascii_dec (url page) NL)%nat.
Proof.
  eexists; split; [reflexivity|].
  apply (answer_question_block_layout
           (mkWorld (fun _ => Some (lit " moons?"))
               (fun _ => Some [lit "Moon"])
               (fun t => PageFound
                           (mkPage t (lit "The moon orbits. A moon is a rock.")
                                   (lit "The moon orbits.") (lit "http://m")))
               (fun _ _ => Some [4; 19])
               (lit "today"))
           (lit "What is a moon?")).
  reflexivity.
Defined.
